(** * golden-go: the LDAP authentication client (pkg/utils/ldap/ldap.go)

    A shallow embedding of the directory client: Go strings are byte
    strings ([string]), Go [int] is [Z], a nilable pointer is an [option],
    an [(T, error)] return is a [Result], a Go interface is a type class of
    state-passing operations, and methods that talk to the directory run in
    a small state monad whose computations may also stop with a runtime
    panic.  Calls of the logger are left out: they do not change what a
    method returns or what it asks of the directory. *)

From Stdlib Require Import ZArith List String Ascii Bool Lia QArith Qround.
From Stdlib Require Import DecimalString Qminmax.
Import ListNotations.

Close Scope Q_scope.
Open Scope string_scope.
Open Scope Z_scope.

(** ** Bytes *)

Definition byte_val (c : ascii) : N := N_of_ascii c.

Definition byte_of (n : N) : ascii := ascii_of_N n.

Definition bytes (l : list N) : string := string_of_list_ascii (map byte_of l).

Fixpoint count_byte (c : ascii) (s : string) : nat :=
  match s with
  | EmptyString => 0%nat
  | String a r => ((if Ascii.eqb a c then 1 else 0) + count_byte c r)%nat
  end.

Fixpoint drop (n : nat) (s : string) : string :=
  match n, s with
  | O, _ => s
  | S _, EmptyString => EmptyString
  | S k, String _ r => drop k r
  end.

Definition srev (s : string) : string :=
  string_of_list_ascii (rev (list_ascii_of_string s)).

(** ** Package [strings] of the Go standard library *)

Module strings.

(** [strings.HasPrefix]. *)
Definition HasPrefix (s p : string) : bool := String.prefix p s.

(** [strings.Contains(s, substr)]. *)
Fixpoint Contains (s substr : string) : bool :=
  HasPrefix s substr ||
  match s with
  | EmptyString => false
  | String _ r => Contains r substr
  end.

(** [strings.ReplaceAll(s, old, new)] for a non-empty [old] (every call
    site passes the literal "%s"): non-overlapping occurrences of [old]
    are replaced from left to right.  [fuel] bounds the scan by the
    length of [s]. *)
Fixpoint replaceAll (fuel : nat) (s old new : string) : string :=
  match fuel with
  | O => s
  | S f =>
      match s with
      | EmptyString => EmptyString
      | String c r =>
          if HasPrefix s old
          then new ++ replaceAll f (drop (String.length old) s) old new
          else String c (replaceAll f r old new)
      end
  end.

Definition ReplaceAll (s old new : string) : string :=
  replaceAll (String.length s) s old new.

(** [strings.ToLower] on the ASCII letters.  Go also lowers letters
    outside ASCII; none of them lowers to 'd' or 'n', so the only
    comparison made with the result, against "dn", is not affected. *)
Definition lowerByte (c : ascii) : ascii :=
  let n := byte_val c in
  if ((65 <=? n) && (n <=? 90))%N then byte_of (n + 32) else c.

Fixpoint ToLower (s : string) : string :=
  match s with
  | EmptyString => EmptyString
  | String c r => String (lowerByte c) (ToLower r)
  end.

(** [strings.TrimPrefix] and [strings.TrimSuffix]. *)
Definition TrimPrefix (s p : string) : string :=
  if HasPrefix s p then drop (String.length p) s else s.

Definition HasSuffix (s p : string) : bool := HasPrefix (srev s) (srev p).

Definition TrimSuffix (s p : string) : string :=
  if HasSuffix s p
  then srev (drop (String.length p) (srev s))
  else s.

(** [strings.Split(s, sep)] for a one-byte separator: the fields between
    the separators, so the result is never empty. *)
Fixpoint splitByte (sep : ascii) (cur : string) (s : string) : list string :=
  match s with
  | EmptyString => [srev cur]
  | String c r =>
      if Ascii.eqb c sep
      then srev cur :: splitByte sep EmptyString r
      else splitByte sep (String c cur) r
  end.

Definition Split (s : string) (sep : ascii) : list string :=
  splitByte sep EmptyString s.

(** [strings.TrimSpace]: leading and trailing white space is cut, where
    white space is what [unicode.IsSpace] accepts, in its UTF-8
    encoding: the six ASCII bytes, U+0085, U+00A0, U+1680,
    U+2000..U+200A, U+2028, U+2029, U+202F, U+205F and U+3000. *)
Definition asciiSpace (c : ascii) : bool :=
  let n := byte_val c in
  ((9 <=? n) && (n <=? 13) || (n =? 32))%N.

Definition spaceRunes : list string :=
  map bytes
    ([[194; 133]; [194; 160]; [225; 154; 128]] ++
     map (fun k => [226; 128; k])
         [128; 129; 130; 131; 132; 133; 134; 135; 136; 137; 138;
          168; 169; 175] ++
     [[226; 129; 159]; [227; 128; 128]])%N%list.

(** Width in bytes of the white-space rune at the head of [s] (0 when
    the head is no white space), against the given encodings. *)
Definition spaceWidth (encs : list string) (s : string) : nat :=
  match s with
  | EmptyString => 0%nat
  | String c _ =>
      if asciiSpace c then 1%nat
      else match find (HasPrefix s) encs with
           | Some e => String.length e
           | None => 0%nat
           end
  end.

Fixpoint trimLeft (fuel : nat) (encs : list string) (s : string) : string :=
  match fuel with
  | O => s
  | S f =>
      match spaceWidth encs s with
      | O => s
      | w => trimLeft f encs (drop w s)
      end
  end.

Definition TrimLeftSpace (s : string) : string :=
  trimLeft (String.length s) spaceRunes s.

(** The last rune is decoded backwards; on the reversed string that is a
    match against the reversed encodings. *)
Definition TrimRightSpace (s : string) : string :=
  let r := srev s in
  srev (trimLeft (String.length r) (map srev spaceRunes) r).

Definition TrimSpace (s : string) : string :=
  TrimRightSpace (TrimLeftSpace s).

End strings.

(** ** Package [fmt]: the plain-verb fragment of [Sprintf]

    Operands are strings.  The fragment has literal text, "%%", and the
    verbs %s and %v without flag, width, precision or argument index; a
    verb with no operand left renders as "%!s(MISSING)", a format ending
    in '%' as "%!(NOVERB)", and unused operands are appended as
    "%!(EXTRA string=...)".  Any other directive is outside the fragment:
    [None]. *)

Module fmt.

Fixpoint extraOperands (a : list string) : string :=
  match a with
  | [] => ""
  | [x] => "string=" ++ x
  | x :: r => "string=" ++ x ++ ", " ++ extraOperands r
  end.

Definition missing (verb : ascii) : string :=
  "%!" ++ String verb "(MISSING)".

Fixpoint Sprintf (format : string) (a : list string) : option string :=
  match format with
  | EmptyString =>
      Some (match a with
            | [] => ""
            | _ => "%!(EXTRA " ++ extraOperands a ++ ")"
            end)
  | String "%" EmptyString =>
      Some ("%!(NOVERB)" ++
            match a with
            | [] => ""
            | _ => "%!(EXTRA " ++ extraOperands a ++ ")"
            end)
  | String "%" (String verb rest) =>
      if Ascii.eqb verb "%" then option_map (String "%") (Sprintf rest a)
      else if Ascii.eqb verb "s" || Ascii.eqb verb "v" then
        match a with
        | x :: a' => option_map (String.append x) (Sprintf rest a')
        | [] => option_map (String.append (missing verb)) (Sprintf rest [])
        end
      else None
  | String c rest => option_map (String c) (Sprintf rest a)
  end.

End fmt.

(** ** Packages [strconv] and [net] *)

Module strconv.
Definition Itoa (i : Z) : string := NilZero.string_of_int (Z.to_int i).
End strconv.

Module net.
(** [net.JoinHostPort]: a host with a colon is taken for a literal IPv6
    address and bracketed. *)
Definition JoinHostPort (host port : string) : string :=
  if (0 <? count_byte ":" host)%nat
  then "[" ++ host ++ "]:" ++ port
  else host ++ ":" ++ port.
End net.

(** ** Errors

    Go's [error] values that the client can see: its two sentinels, an
    [*ldap.Error] carrying the directory's result code, and any other
    error. *)

Inductive error : Type :=
| ErrInvalidCredentials
| ErrCouldNotFindUser
| LdapError (ResultCode : Z) (text : string)
| OtherError (text : string).

(** [err.Error()]. *)
Definition Error (e : error) : string :=
  match e with
  | ErrInvalidCredentials => "invalid username or password"
  | ErrCouldNotFindUser => "can't find user in LDAP"
  | LdapError _ t => t
  | OtherError t => t
  end.

(** A Go [(T, error)] return: exactly one of the two is set in this code. *)
Inductive Result (A : Type) : Type :=
| Ok (a : A)
| Err (e : error).
Arguments Ok {A} a.
Arguments Err {A} e.

(** ** Package [goldap] (github.com/go-ldap/ldap), as far as the client
    uses it *)

Module goldap.

Definition ScopeWholeSubtree : Z := 2.
Definition NeverDerefAliases : Z := 0.

Record EntryAttribute : Type := {
  Name : string;
  Values : list string
}.

Record Entry : Type := {
  DN : string;
  Attributes : list EntryAttribute
}.

Record SearchResult : Type := {
  Entries : list Entry
}.

(** [ReqAttributes] is the field [Attributes] of the request; the fields
    that [getSearchRequest] does not set are left out. *)
Record SearchRequest : Type := {
  BaseDN : string;
  Scope : Z;
  DerefAliases : Z;
  ReqAttributes : list string;
  Filter : string
}.

(** [ldap.EscapeFilter]: the bytes '(', ')', '*', '\', NUL and those
    above 0x7f are written as a backslash and two hexadecimal digits
    (RFC 4515). *)
Definition mustEscape (c : ascii) : bool :=
  let n := byte_val c in
  ((127 <? n) || (n =? 40) || (n =? 41) || (n =? 92) || (n =? 42)
   || (n =? 0))%N.

Definition hex (n : N) : ascii :=
  nth (N.to_nat n) (list_ascii_of_string "0123456789abcdef") "0"%char.

Fixpoint EscapeFilter (filter : string) : string :=
  match filter with
  | EmptyString => EmptyString
  | String c r =>
      if mustEscape c
      then String "\" (String (hex (N.shiftr (byte_val c) 4))
                      (String (hex (N.land (byte_val c) 15))
                         (EscapeFilter r)))
      else String c (EscapeFilter r)
  end.

End goldap.

(** ** Packages [crypto/tls] and [crypto/x509], as far as [Dial] uses them *)

Module x509.
(** A certificate pool is the list of the certificates added to it. *)
Definition CertPool : Type := list string.
Definition NewCertPool : CertPool := [].
End x509.

Module tls.

(** [tls.Certificate]; [Chain] is its field [Certificate], the chain of
    encoded certificates, empty in the zero value. *)
Record Certificate : Type := {
  Chain : list string
}.

Record Config : Type := {
  InsecureSkipVerify : bool;
  ServerName : string;
  RootCAs : option x509.CertPool;
  Certificates : list Certificate
}.

End tls.

(** ** Packages [models] and [types] of the repository *)

Module models.

(** Modelled from the spec: the value of the constant [AuthModuleLDAP] of
    package [models], which is not among the sources; it is the tag that
    marks a user as coming from the directory. *)
Definition AuthModuleLDAP : string := "ldap".

(** Modelled from the spec: the struct [User] of package [models], which
    is not among the sources, with the fields that [buildGoldenUser] sets:
    the origin tag, the display name and the email. *)
Record User : Type := {
  AuthModule : string;
  Name : string;
  Email : string
}.

End models.

Module types.

(** Modelled from the spec: the struct [LoginData] of package [types],
    which is not among the sources, with the fields that [Login] reads:
    the requested login name and the plaintext credential. *)
Record LoginData : Type := {
  Name : string;
  Password : string
}.

End types.

(** ** Computations

    A method of the client is a state-passing function that either returns
    or stops: with one of Go's runtime panics, or because a format string
    left the formalised fragment of [fmt]. *)

Inductive stop : Type :=
| PanicNilDereference
| PanicSliceBounds
| FormatOutsideFragment.

Inductive outcome (A : Type) : Type :=
| Return (a : A)
| Stopped (s : stop).
Arguments Return {A} a.
Arguments Stopped {A} s.

Definition M (S A : Type) : Type := S -> outcome A * S.

Definition ret {S A} (a : A) : M S A := fun s => (Return a, s).

Definition bind {S A B} (m : M S A) (k : A -> M S B) : M S B :=
  fun s =>
    match m s with
    | (Return a, s') => k a s'
    | (Stopped p, s') => (Stopped p, s')
    end.

Definition panic {S A} (p : stop) : M S A := fun s => (Stopped p, s).

Definition lift_outcome {S A} (o : outcome A) : M S A := fun s => (o, s).

Notation "x <- m ;; k" := (bind m (fun x => k))
  (at level 61, m at next level, right associativity).

(** An operation of the outside world: it always returns. *)
Definition call {S A} (op : S -> A * S) : M S A :=
  fun s => let (a, s') := op s in (Return a, s').

(** A computation on the connection, run where the state also carries the
    variables captured by a closure. *)
Definition on_snd {V S A} (m : M S A) : M (V * S) A :=
  fun vs => let (o, s') := m (snd vs) in (o, (fst vs, s')).

(** [fmt.Sprintf] inside a computation. *)
Definition Sprintf {S} (format : string) (a : list string) : M S string :=
  match fmt.Sprintf format a with
  | Some s => ret s
  | None => panic FormatOutsideFragment
  end.

(** [l[lo:hi]] on a slice whose capacity is its length. *)
Definition slice {A} (l : list A) (lo hi : Z) : outcome (list A) :=
  if (0 <=? lo) && (lo <=? hi) && (hi <=? Z.of_nat (List.length l))
  then Return (firstn (Z.to_nat (hi - lo)) (skipn (Z.to_nat lo) l))
  else Stopped PanicSliceBounds.

(** [float64] values are rationals: every integer the client converts is
    a slice length or a multiple of the batch size below it, far below
    2^53, so the conversions are exact, and the one quotient taken is
    rounded by less than its distance to the next integer. *)
Definition float64 (i : Z) : Q := inject_Z i.

(** [int(x)] truncates towards zero. *)
Definition int (x : Q) : Z := Z.quot (Qnum x) (Zpos (Qden x)).

Module math.
Definition Ceil (x : Q) : Q := inject_Z (Qceiling x).
Definition Min (x y : Q) : Q := Qmin x y.
End math.

(** ** Package [ldap]: configuration *)

(** [AttributeMap]: the "attributes" setting. *)
Record AttributeMap : Type := {
  Username : string;
  Name : string;
  Surname : string;
  Email : string;
  MemberOf : string
}.

(** [ServerConfig]: connection data of one directory server. *)
Record ServerConfig : Type := {
  Host : string;
  Port : Z;
  UseSSL : bool;
  StartTLS : bool;
  SkipVerifySSL : bool;
  RootCACert : string;
  ClientCert : string;
  ClientKey : string;
  BindDN : string;
  BindPassword : string;
  Attr : AttributeMap;
  SearchFilter : string;
  SearchBaseDNs : list string;
  GroupSearchFilter : string;
  GroupSearchFilterUserAttribute : string;
  GroupSearchBaseDNs : list string
}.

(** ** The connection interface

    [IConnection]: the operations of a live session, each taking the
    session's state to its answer and the next state.  [Add] and [Del] are
    passed through by the client and take no part in any method below. *)

Module Conn.

Class IConnection (C : Type) : Type := {
  Bind : string -> string -> C -> option error * C;
  UnauthenticatedBind : string -> C -> option error * C;
  Search : goldap.SearchRequest -> C -> (goldap.SearchResult + error) * C;
  StartTLS : tls.Config -> C -> option error * C;
  Close : C -> unit * C
}.

End Conn.

(** What [Dial] needs from outside: the files of the configuration, the
    PEM parser, and the two dial functions of [goldap]; files are not
    written while [Dial] runs, the network has a state of its own. *)

Module Env.

Class Environment (N C : Type) : Type := {
  ReadFile : string -> string + error;
  (** the certificates [AppendCertsFromPEM] finds in a PEM text *)
  CertsFromPEM : string -> list string;
  LoadX509KeyPair : string -> string -> tls.Certificate + error;
  Dial : string -> string -> N -> (C + error) * N;
  DialTLS : string -> string -> tls.Config -> N -> (C + error) * N
}.

End Env.

(** ** Package [ldap]: helpers *)

Fixpoint appendIfNotEmpty (slice : list string) (values : list string)
  : list string :=
  match values with
  | [] => slice
  | v :: r =>
      appendIfNotEmpty
        (if negb (String.eqb v "") then (slice ++ [v])%list else slice) r
  end.

Fixpoint getAttribute_loop (name : string) (attrs : list goldap.EntryAttribute)
  : string :=
  match attrs with
  | [] => ""
  | attr :: r =>
      if String.eqb (goldap.Name attr) name then
        match goldap.Values attr with
        | v :: _ => v
        | [] => getAttribute_loop name r
        end
      else getAttribute_loop name r
  end.

Definition getAttribute (name : string) (entry : goldap.Entry) : string :=
  if String.eqb (strings.ToLower name) "dn" then goldap.DN entry
  else getAttribute_loop name (goldap.Attributes entry).

(** [UsersMaxRequest]: the most users requested in one search. *)
Definition UsersMaxRequest : Z := 500.

(** [getUsersIteration]: the callback is run on consecutive index ranges
    of at most [UsersMaxRequest] logins; [fuel] is the number of rounds of
    the [for] loop. *)
Fixpoint getUsersIteration_loop {S} (fuel : nat) (lenLogins iterations i : Z)
    (fn : Z -> Z -> M S (option error)) : M S (option error) :=
  match fuel with
  | O => ret None
  | S f =>
      if i <? iterations + 1 then
        let previous := float64 (UsersMaxRequest * (i - 1)) in
        let current :=
          math.Min (float64 (i * UsersMaxRequest)) (float64 lenLogins) in
        err <- fn (int previous) (int current) ;;
        match err with
        | Some e => ret (Some e)
        | None => getUsersIteration_loop f lenLogins iterations (i + 1) fn
        end
      else ret None
  end.

Definition getUsersIteration {S} (logins : list string)
    (fn : Z -> Z -> M S (option error)) : M S (option error) :=
  let lenLogins := Z.of_nat (List.length logins) in
  let iterations :=
    int (math.Ceil (float64 lenLogins / float64 UsersMaxRequest)%Q) in
  getUsersIteration_loop (Z.to_nat iterations) lenLogins iterations 1 fn.

Section Client.

Context {C : Type} {IC : Conn.IConnection C}.

Variable Config : ServerConfig.

(** [shouldAdminBind], [shouldSingleBind], [singleBindDN]. *)
Definition shouldAdminBind : bool :=
  negb (String.eqb (BindPassword Config) "").

Definition shouldSingleBind : bool :=
  strings.Contains (BindDN Config) "%s".

Definition singleBindDN {S} (username : string) : M S string :=
  Sprintf (BindDN Config) [username].

(** [userBind]: result code 49 of the directory becomes
    [ErrInvalidCredentials]. *)
Definition userBind (path password : string) : M C (option error) :=
  err <- call (Conn.Bind path password) ;;
  match err with
  | Some (LdapError code _) =>
      if code =? 49 then ret (Some ErrInvalidCredentials) else ret err
  | _ => ret err
  end.

(** [UserBind] and [AdminBind] log a failure and pass it on. *)
Definition UserBind (username password : string) : M C (option error) :=
  userBind username password.

Definition AdminBind : M C (option error) :=
  userBind (BindDN Config) (BindPassword Config).

(** [Bind]: as the configured administrator, or without a password. *)
Definition Bind : M C (option error) :=
  if shouldAdminBind then AdminBind
  else call (Conn.UnauthenticatedBind (BindDN Config)).

Definition Close : M C unit := call Conn.Close.

(** [getSearchRequest]. *)
Definition getSearchRequest {S} (base : string) (logins : list string)
  : M S goldap.SearchRequest :=
  let inputs := Attr Config in
  let attributes :=
    appendIfNotEmpty []
      [Username inputs; Surname inputs; Email inputs; Name inputs;
       MemberOf inputs; GroupSearchFilterUserAttribute Config] in
  let search :=
    fold_left
      (fun search login =>
         search ++ strings.ReplaceAll (SearchFilter Config) "%s"
                     (goldap.EscapeFilter login))
      logins "" in
  filter <- Sprintf "(|%s)" [search] ;;
  ret {| goldap.BaseDN := base;
         goldap.Scope := goldap.ScopeWholeSubtree;
         goldap.DerefAliases := goldap.NeverDerefAliases;
         goldap.ReqAttributes := attributes;
         goldap.Filter := filter |}.

(** [users]: the bases are searched in order until one has entries;
    [result] is the nilable pointer the loop assigns. *)
Fixpoint users_loop (logins : list string) (bases : list string)
    (result : option goldap.SearchResult)
  : M C (Result (option goldap.SearchResult)) :=
  match bases with
  | [] => ret (Ok result)
  | base :: rest =>
      req <- getSearchRequest base logins ;;
      r <- call (Conn.Search req) ;;
      match r with
      | inr err => ret (Err err)
      | inl res =>
          if (0 <? List.length (goldap.Entries res))%nat
          then ret (Ok (Some res))
          else users_loop logins rest (Some res)
      end
  end.

Definition users (logins : list string) : M C (Result (list goldap.Entry)) :=
  r <- users_loop logins (SearchBaseDNs Config) None ;;
  match r with
  | Err err => ret (Err err)
  | Ok None => panic PanicNilDereference
  | Ok (Some res) => ret (Ok (goldap.Entries res))
  end.

(** [validateGoldenUser]: the group check is commented out. *)
Definition validateGoldenUser (user : models.User) : option error := None.

(** [buildGoldenUser]. *)
Definition buildGoldenUser {S} (user : goldap.Entry)
  : M S (Result models.User) :=
  let attrs := Attr Config in
  name <- Sprintf "%s %s"
            [getAttribute (Name attrs) user;
             getAttribute (Surname attrs) user] ;;
  ret (Ok {| models.AuthModule := models.AuthModuleLDAP;
             models.Name := strings.TrimSpace name;
             models.Email := getAttribute (Email attrs) user |}).

(** [serializeUsers]. *)
Fixpoint serializeUsers_loop {S} (entries : list goldap.Entry)
    (serialized : list models.User) : M S (Result (list models.User)) :=
  match entries with
  | [] => ret (Ok serialized)
  | user :: rest =>
      r <- buildGoldenUser user ;;
      match r with
      | Err err => ret (Err err)
      | Ok extUser => serializeUsers_loop rest (serialized ++ [extUser])%list
      end
  end.

Definition serializeUsers {S} (entries : list goldap.Entry)
  : M S (Result (list models.User)) :=
  serializeUsers_loop entries [].

(** [Users]: the entries of all batches, serialized; the callback
    appends to the captured variable [users]. *)
Definition Users_fn (logins : list string) (previous current : Z)
  : M (list goldap.Entry * C) (option error) :=
  batch <- lift_outcome (slice logins previous current) ;;
  r <- on_snd (users batch) ;;
  match r with
  | Err err => ret (Some err)
  | Ok entries =>
      fun st => (Return None, ((fst st ++ entries)%list, snd st))
  end.

Definition Users (logins : list string) : M C (Result (list models.User)) :=
  fun c =>
    match getUsersIteration logins (Users_fn logins) ([], c) with
    | (Stopped p, st) => (Stopped p, snd st)
    | (Return (Some err), st) => (Return (Err err), snd st)
    | (Return None, st) =>
        if (List.length (fst st) =? 0)%nat
        then (Return (Ok []), snd st)
        else serializeUsers (fst st) (snd st)
    end.

(** [Login], first the [switch] that binds the connection: it yields
    the error of the bind and the flag [authAndBind]. *)
Definition Login_bind (query : types.LoginData)
  : M C (option error * bool) :=
  if shouldAdminBind then
    err <- AdminBind ;; ret (err, false)
  else if shouldSingleBind then
    dn <- singleBindDN (types.Name query) ;;
    err <- UserBind dn (types.Password query) ;;
    ret (err, true)
  else
    err <- call (Conn.UnauthenticatedBind (BindDN Config)) ;;
    ret (err, false).

Definition Login (query : types.LoginData) : M C (Result models.User) :=
  bound <- Login_bind query ;;
  match bound with
  | (Some err, _) => ret (Err err)
  | (None, authAndBind) =>
      found <- Users [types.Name query] ;;
      match found with
      | Err err => ret (Err err)
      | Ok [] => ret (Err ErrCouldNotFindUser)
      | Ok (user :: _) =>
          match validateGoldenUser user with
          | Some err => ret (Err err)
          | None =>
              if negb authAndBind then
                err <- UserBind (models.Name user) (types.Password query) ;;
                match err with
                | Some e => ret (Err e)
                | None => ret (Ok user)
                end
              else ret (Ok user)
          end
      end
  end.

End Client.

(** The case of [Login]'s [switch] that a configuration takes. *)
Inductive BindStrategy : Type :=
| AdminBindStrategy
| SingleBindStrategy
| UnauthenticatedBindStrategy.

Definition bindStrategy (Config : ServerConfig) : BindStrategy :=
  if shouldAdminBind Config then AdminBindStrategy
  else if shouldSingleBind Config then SingleBindStrategy
  else UnauthenticatedBindStrategy.

(** ** [Dial] *)

Section Dialer.

Context {N C : Type} {IC : Conn.IConnection C} {EV : Env.Environment N C}.

Variable Config : ServerConfig.

(** The loop over the files of [RootCACert]. *)
Fixpoint appendCAs (files : list string) (certPool : x509.CertPool)
  : Result x509.CertPool :=
  match files with
  | [] => Ok certPool
  | caCertFile :: rest =>
      match Env.ReadFile (N := N) (C := C) caCertFile with
      | inr err => Err err
      | inl pem =>
          match Env.CertsFromPEM (N := N) (C := C) pem with
          | [] => Err (OtherError
                         ("Failed to append CA certificate " ++ caCertFile))
          | certs => appendCAs rest (certPool ++ certs)%list
          end
      end
  end.

Definition loadRootCAs : Result (option x509.CertPool) :=
  if negb (String.eqb (RootCACert Config) "") then
    match appendCAs (strings.Split (RootCACert Config) " ")
                    x509.NewCertPool with
    | Ok pool => Ok (Some pool)
    | Err err => Err err
    end
  else Ok None.

Definition loadClientCert : Result tls.Certificate :=
  if negb (String.eqb (ClientCert Config) "")
     && negb (String.eqb (ClientKey Config) "") then
    match Env.LoadX509KeyPair (N := N) (C := C)
            (ClientCert Config) (ClientKey Config) with
    | inl cert => Ok cert
    | inr err => Err err
    end
  else Ok {| tls.Chain := [] |}.

Definition normalizeHost (host : string) : string :=
  strings.TrimSuffix (strings.TrimPrefix host "[") "]".

Definition hostAddress (host : string) : string :=
  net.JoinHostPort (normalizeHost host) (strconv.Itoa (Port Config)).

Definition hostTLS (certPool : option x509.CertPool)
    (clientCert : tls.Certificate) (host : string) : tls.Config :=
  {| tls.InsecureSkipVerify := SkipVerifySSL Config;
     tls.ServerName := normalizeHost host;
     tls.RootCAs := certPool;
     tls.Certificates :=
       if (0 <? List.length (tls.Chain clientCert))%nat
       then [clientCert] else [] |}.

(** One round of the loop over the hosts: the error of this host and
    the connection left in [server.Connection]. *)
Definition Dial_host (certPool : option x509.CertPool)
    (clientCert : tls.Certificate) (host : string) (n : N)
  : (option error * option C) * N :=
  let address := hostAddress host in
  if UseSSL Config then
    let tlsCfg := hostTLS certPool clientCert host in
    if StartTLS Config then
      let (r, n1) := Env.Dial "tcp" address n in
      match r with
      | inl c =>
          let (err, c') := Conn.StartTLS tlsCfg c in
          ((err, Some c'), n1)
      | inr err => ((Some err, None), n1)
      end
    else
      let (r, n1) := Env.DialTLS "tcp" address tlsCfg n in
      match r with
      | inl c => ((None, Some c), n1)
      | inr err => ((Some err, None), n1)
      end
  else
    let (r, n1) := Env.Dial "tcp" address n in
    match r with
    | inl c => ((None, Some c), n1)
    | inr err => ((Some err, None), n1)
    end.

Fixpoint Dial_hosts (certPool : option x509.CertPool)
    (clientCert : tls.Certificate) (hosts : list string)
    (err : option error) (Connection : option C) (n : N)
  : (option error * option C) * N :=
  match hosts with
  | [] => ((err, Connection), n)
  | host :: rest =>
      match Dial_host certPool clientCert host n with
      | ((None, conn), n1) => ((None, conn), n1)
      | ((Some e, conn), n1) =>
          Dial_hosts certPool clientCert rest (Some e) conn n1
      end
  end.

(** [Dial]: the error returned and the new [server.Connection]. *)
Definition Dial (Connection : option C) (n : N)
  : (option error * option C) * N :=
  match loadRootCAs with
  | Err err => ((Some err, Connection), n)
  | Ok certPool =>
      match loadClientCert with
      | Err err => ((Some err, Connection), n)
      | Ok clientCert =>
          Dial_hosts certPool clientCert
            (strings.Split (Host Config) " ") None Connection n
      end
  end.

End Dialer.

(** ** Observers and test doubles *)

(** A connection that writes down the calls made on it. *)
Inductive Call : Type :=
| CallBind (username password : string)
| CallUnauthenticatedBind (username : string)
| CallSearch (req : goldap.SearchRequest)
| CallStartTLS (cfg : tls.Config)
| CallClose.

Record Recorder (C : Type) : Type := {
  inner : C;
  calls : list Call
}.
Arguments inner {C} _.
Arguments calls {C} _.

Definition record {C A} (what : Call) (op : C -> A * C) (r : Recorder C)
  : A * Recorder C :=
  let (a, c') := op (inner r) in
  (a, {| inner := c'; calls := (calls r ++ [what])%list |}).

#[export] Instance Recorder_IConnection {C : Type} {IC : Conn.IConnection C}
  : Conn.IConnection (Recorder C) := {|
  Conn.Bind u p := record (CallBind u p) (Conn.Bind u p);
  Conn.UnauthenticatedBind u :=
    record (CallUnauthenticatedBind u) (Conn.UnauthenticatedBind u);
  Conn.Search req := record (CallSearch req) (Conn.Search req);
  Conn.StartTLS cfg := record (CallStartTLS cfg) (Conn.StartTLS cfg);
  Conn.Close := record CallClose Conn.Close
|}.

Definition isBind (c : Call) : bool :=
  match c with CallBind _ _ => true | _ => false end.

Definition isSearch (c : Call) : bool :=
  match c with CallSearch _ => true | _ => false end.

(** A network that writes down the dial calls and their answers. *)
Record DialCall (C : Type) : Type := {
  dial_tls : bool;
  dial_address : string;
  dial_answer : C + error
}.
Arguments dial_tls {C} _.
Arguments dial_address {C} _.
Arguments dial_answer {C} _.

Record NetRecorder (N C : Type) : Type := {
  network : N;
  dials : list (DialCall C)
}.
Arguments network {N C} _.
Arguments dials {N C} _.

Definition record_dial {N C} (withTLS : bool) (address : string)
    (op : N -> (C + error) * N) (r : NetRecorder N C)
  : (C + error) * NetRecorder N C :=
  let (a, n') := op (network r) in
  (a, {| network := n';
         dials := (dials r ++ [{| dial_tls := withTLS;
                                  dial_address := address;
                                  dial_answer := a |}])%list |}).

#[export] Instance NetRecorder_Environment {N C : Type}
    {EV : Env.Environment N C} : Env.Environment (NetRecorder N C) C := {|
  Env.ReadFile := Env.ReadFile (N := N) (C := C);
  Env.CertsFromPEM := Env.CertsFromPEM (N := N) (C := C);
  Env.LoadX509KeyPair := Env.LoadX509KeyPair (N := N) (C := C);
  Env.Dial nw address := record_dial false address (Env.Dial nw address);
  Env.DialTLS nw address cfg :=
    record_dial true address (Env.DialTLS nw address cfg)
|}.

(** A scripted directory in the manner of a test double: its answers are
    functions of the request. *)
Record MockConnection : Type := {
  BindProvider : string -> string -> option error;
  UnauthenticatedBindProvider : string -> option error;
  SearchProvider : goldap.SearchRequest -> goldap.SearchResult + error;
  StartTLSProvider : option error
}.

#[export] Instance MockConnection_IConnection
  : Conn.IConnection MockConnection := {|
  Conn.Bind u p m := (BindProvider m u p, m);
  Conn.UnauthenticatedBind u m := (UnauthenticatedBindProvider m u, m);
  Conn.Search req m := (SearchProvider m req, m);
  Conn.StartTLS _ m := (StartTLSProvider m, m);
  Conn.Close m := (tt, m)
|}.

(** A scripted network: no files, and a connection or an error for every
    address. *)
Record MockNetwork : Type := {
  DialProvider : string -> MockConnection + error
}.

#[export] Instance MockNetwork_Environment
  : Env.Environment MockNetwork MockConnection := {|
  Env.ReadFile f := inr (OtherError ("open " ++ f ++ ": no such file"));
  Env.CertsFromPEM _ := [];
  Env.LoadX509KeyPair c _ := inr (OtherError ("open " ++ c ++ ": no such file"));
  Env.Dial _ address m := (DialProvider m address, m);
  Env.DialTLS _ address _ m := (DialProvider m address, m)
|}.

(** ** Sample data *)

Definition sampleAttr : AttributeMap :=
  {| Username := "uid"; Name := "givenName"; Surname := "sn";
     Email := "mail"; MemberOf := "" |}.

Definition sampleConfig (bindDN bindPassword : string) : ServerConfig :=
  {| Host := "ldap1.example ldap2.example"; Port := 389;
     UseSSL := false; StartTLS := false; SkipVerifySSL := false;
     RootCACert := ""; ClientCert := ""; ClientKey := "";
     BindDN := bindDN; BindPassword := bindPassword;
     Attr := sampleAttr; SearchFilter := "(uid=%s)";
     SearchBaseDNs := ["dc=example"]; GroupSearchFilter := "";
     GroupSearchFilterUserAttribute := ""; GroupSearchBaseDNs := [] |}.

Definition adminConfig : ServerConfig :=
  sampleConfig "cn=admin,dc=example" "adminpw".

Definition singleConfig : ServerConfig := sampleConfig "uid=%s,dc=example" "".

Definition anonymousConfig : ServerConfig := sampleConfig "" "".

(** A POSIX-schema configuration: groups are looked up by [gidNumber]. *)
Definition posixConfig : ServerConfig :=
  {| Host := "ldap.example"; Port := 389;
     UseSSL := false; StartTLS := false; SkipVerifySSL := false;
     RootCACert := ""; ClientCert := ""; ClientKey := "";
     BindDN := "cn=admin,dc=example"; BindPassword := "adminpw";
     Attr := {| Username := "uid"; Name := ""; Surname := "";
                Email := ""; MemberOf := "" |};
     SearchFilter := "(uid=%s)";
     SearchBaseDNs := ["dc=example"];
     GroupSearchFilter := "(&(objectClass=posixGroup)(gidNumber=%s))";
     GroupSearchFilterUserAttribute := "gidNumber";
     GroupSearchBaseDNs := [] |}.

(** The same server without any search base. *)
Definition baselessConfig : ServerConfig :=
  {| Host := "ldap.example"; Port := 389;
     UseSSL := false; StartTLS := false; SkipVerifySSL := false;
     RootCACert := ""; ClientCert := ""; ClientKey := "";
     BindDN := "cn=admin,dc=example"; BindPassword := "adminpw";
     Attr := sampleAttr; SearchFilter := "(uid=%s)";
     SearchBaseDNs := []; GroupSearchFilter := "";
     GroupSearchFilterUserAttribute := ""; GroupSearchBaseDNs := [] |}.

Definition person (dn given sn mail : string) : goldap.Entry :=
  {| goldap.DN := dn;
     goldap.Attributes :=
       [ {| goldap.Name := "givenName"; goldap.Values := [given] |};
         {| goldap.Name := "sn"; goldap.Values := [sn] |};
         {| goldap.Name := "mail"; goldap.Values := [mail] |} ] |}.

Definition carol : goldap.Entry :=
  person "uid=carol,dc=example" "Carol" "Smith" "carol@x.com".

Definition alice : goldap.Entry :=
  person "uid=alice,dc=example" "uid=alice,dc=example" "" "alice@x.com".

Definition jane : goldap.Entry :=
  person "uid=jane,dc=example" "Jane" "Doe" "jane@x.com".

Definition janeNoSurname : goldap.Entry :=
  {| goldap.DN := "uid=jane,dc=example";
     goldap.Attributes :=
       [ {| goldap.Name := "givenName"; goldap.Values := ["Jane"] |};
         {| goldap.Name := "mail"; goldap.Values := ["jane@x.com"] |} ] |}.

(** A directory with the administrator, carol and alice; a wrong
    password is answered with result code 49. *)
Definition sampleDirectory : MockConnection :=
  {| BindProvider u p :=
       if (String.eqb u "cn=admin,dc=example" && String.eqb p "adminpw")
          || (String.eqb u "uid=carol,dc=example" && String.eqb p "secret")
          || (String.eqb u "uid=alice,dc=example" && String.eqb p "right")
       then None
       else Some (LdapError 49 "LDAP Result Code 49: Invalid Credentials");
     UnauthenticatedBindProvider _ := None;
     SearchProvider req :=
       inl {| goldap.Entries :=
                if String.eqb (goldap.Filter req) "(|(uid=carol))"
                then [carol]
                else if String.eqb (goldap.Filter req) "(|(uid=alice))"
                then [alice]
                else [] |};
     StartTLSProvider := None |}.

Definition fresh {C} (c : C) : Recorder C := {| inner := c; calls := [] |}.

(** A network on which only [ldap2.example:389] answers. *)
Definition sampleNetwork : MockNetwork :=
  {| DialProvider a :=
       if String.eqb a "ldap2.example:389" then inl sampleDirectory
       else inr (OtherError ("dial tcp " ++ a ++ ": connection refused")) |}.

(** A callback for [getUsersIteration] that writes down its ranges. *)
Definition noteRange (previous current : Z) : M (list (Z * Z)) (option error) :=
  fun seen => (Return None, (seen ++ [(previous, current)])%list).

(** The user [buildGoldenUser] makes of an entry. *)
Definition goldenUser (Config : ServerConfig) (entry : goldap.Entry)
  : models.User :=
  {| models.AuthModule := models.AuthModuleLDAP;
     models.Name :=
       strings.TrimSpace
         (getAttribute (Name (Attr Config)) entry ++ " " ++
          getAttribute (Surname (Attr Config)) entry);
     models.Email := getAttribute (Email (Attr Config)) entry |}.

(** The request [getSearchRequest] makes for a base and a batch. *)
Definition searchRequest (Config : ServerConfig) (base : string)
    (logins : list string) : goldap.SearchRequest :=
  {| goldap.BaseDN := base;
     goldap.Scope := goldap.ScopeWholeSubtree;
     goldap.DerefAliases := goldap.NeverDerefAliases;
     goldap.ReqAttributes :=
       filter (fun v => negb (String.eqb v ""))
         [Username (Attr Config); Surname (Attr Config); Email (Attr Config);
          Name (Attr Config); MemberOf (Attr Config);
          GroupSearchFilterUserAttribute Config];
     goldap.Filter :=
       "(|" ++
       String.concat ""
         (map (fun login =>
                 strings.ReplaceAll (SearchFilter Config) "%s"
                   (goldap.EscapeFilter login)) logins) ++
       ")" |}.

(** The names bound in the attribute map. *)
Definition mappedNames (a : AttributeMap) : list string :=
  [Username a; Name a; Surname a; Email a; MemberOf a].

(** What [userBind] makes of the answer of the directory. *)
Definition bindError (err : option error) : option error :=
  match err with
  | Some (LdapError code _) =>
      if code =? 49 then Some ErrInvalidCredentials else err
  | _ => err
  end.

(** The structural bytes of a filter. *)
Definition structural (c : ascii) : Prop :=
  c = "("%char \/ c = ")"%char \/ c = "*"%char.

(** The [i]-th index range of [getUsersIteration], for [lenLogins] logins. *)
Definition batchRange (lenLogins i : Z) : Z * Z :=
  (UsersMaxRequest * (i - 1), Z.min (i * UsersMaxRequest) lenLogins).

(** The integers [i], [i + 1], ..., [i + k - 1]. *)
Definition upFrom (i : Z) (k : nat) : list Z :=
  map (fun j => i + Z.of_nat j) (seq 0 k).

(** The logins of the [i]-th batch. *)
Definition batch (logins : list string) (i : Z) : list string :=
  let r := batchRange (Z.of_nat (List.length logins)) i in
  firstn (Z.to_nat (snd r - fst r)) (skipn (Z.to_nat (fst r)) logins).

(** The search calls for a batch on the first [k] bases. *)
Definition searchCalls (Config : ServerConfig) (logins : list string)
    (bases : list string) : list Call :=
  map (fun base => CallSearch (searchRequest Config base logins)) bases.

(** The error of one host's attempt, read off a recorded dial call: the
    error of the dial, or in StartTLS mode the error of the upgrade of the
    connection that the dial returned. *)
Definition attemptError {C} {IC : Conn.IConnection C} (Config : ServerConfig)
    (certPool : option x509.CertPool) (clientCert : tls.Certificate)
    (host : string) (d : DialCall C) : option error :=
  match dial_answer d with
  | inr err => Some err
  | inl c =>
      if UseSSL Config && StartTLS Config
      then fst (Conn.StartTLS (hostTLS Config certPool clientCert host) c)
      else None
  end.

(** A recorded dial call belongs to a host and failed. *)
Definition failedAttempt {C} {IC : Conn.IConnection C} (Config : ServerConfig)
    (certPool : option x509.CertPool) (clientCert : tls.Certificate)
    (host : string) (d : DialCall C) : Prop :=
  dial_address d = hostAddress Config host /\
  attemptError Config certPool clientCert host d <> None.

(** ** Package [ldap]: group membership *)

Fixpoint getArrayAttribute_loop (name : string)
    (attrs : list goldap.EntryAttribute) : list string :=
  match attrs with
  | [] => []
  | attr :: r =>
      if String.eqb (goldap.Name attr) name
         && (0 <? List.length (goldap.Values attr))%nat
      then goldap.Values attr
      else getArrayAttribute_loop name r
  end.

Definition getArrayAttribute (name : string) (entry : goldap.Entry)
  : list string :=
  if String.eqb (strings.ToLower name) "dn" then [goldap.DN entry]
  else getArrayAttribute_loop name (goldap.Attributes entry).

Section Groups.

Context {C : Type} {IC : Conn.IConnection C}.

Variable Config : ServerConfig.

(** The bases [requestMemberOf] searches: those of the groups, or for
    want of them those of the users. *)
Definition groupSearchBaseDNs : list string :=
  if (0 <? List.length (GroupSearchBaseDNs Config))%nat
  then GroupSearchBaseDNs Config
  else SearchBaseDNs Config.

(** The attribute that identifies a group: the configured one, the DN by
    default. *)
Definition groupIDAttribute : string :=
  let groupIDAttribute := MemberOf (Attr Config) in
  if String.eqb groupIDAttribute "" || String.eqb groupIDAttribute "memberOf"
  then "dn"
  else groupIDAttribute.

(** The request of one round of [requestMemberOf]. *)
Definition groupSearchReq (entry : goldap.Entry) (groupSearchBase : string)
  : goldap.SearchRequest :=
  let filterReplace :=
    if String.eqb (GroupSearchFilterUserAttribute Config) ""
    then getAttribute (Username (Attr Config)) entry
    else getAttribute (GroupSearchFilterUserAttribute Config) entry in
  let filter :=
    strings.ReplaceAll (GroupSearchFilter Config) "%s"
      (goldap.EscapeFilter filterReplace) in
  {| goldap.BaseDN := groupSearchBase;
     goldap.Scope := goldap.ScopeWholeSubtree;
     goldap.DerefAliases := goldap.NeverDerefAliases;
     goldap.ReqAttributes := [groupIDAttribute];
     goldap.Filter := filter |}.

(** [requestMemberOf]: every base is searched, and the identifiers of the
    groups found are collected in [memberOf]. *)
Fixpoint requestMemberOf_loop (entry : goldap.Entry) (bases : list string)
    (memberOf : list string) : M C (Result (list string)) :=
  match bases with
  | [] => ret (Ok memberOf)
  | groupSearchBase :: rest =>
      r <- call (Conn.Search (groupSearchReq entry groupSearchBase)) ;;
      match r with
      | inr err => ret (Err err)
      | inl groupSearchResult =>
          requestMemberOf_loop entry rest
            (memberOf ++
             map (getAttribute groupIDAttribute)
                 (goldap.Entries groupSearchResult))%list
      end
  end.

Definition requestMemberOf (entry : goldap.Entry)
  : M C (Result (list string)) :=
  requestMemberOf_loop entry groupSearchBaseDNs [].


End Groups.

(** A callback for [getUsersIteration] that writes down the logins of its
    ranges, sliced as [Users] slices them. *)
Definition noteBatch (logins : list string) (previous current : Z)
  : M (list (list string)) (option error) :=
  batch <- lift_outcome (slice logins previous current) ;;
  fun seen => (Return None, (seen ++ [batch])%list).

(** A callback that writes down its ranges and reports [err] on the
    range that starts at [bad]. *)
Definition noteRangeUntil (bad : Z) (err : error) (previous current : Z)
  : M (list (Z * Z)) (option error) :=
  fun seen =>
    (Return (if previous =? bad then Some err else None),
     (seen ++ [(previous, current)])%list).

(** A directory whose group search finds two groups. *)
Definition groupDirectory : MockConnection :=
  {| BindProvider _ _ := None;
     UnauthenticatedBindProvider _ := None;
     SearchProvider req :=
       inl {| goldap.Entries :=
                [ {| goldap.DN := "cn=staff,ou=groups,dc=example";
                     goldap.Attributes := [] |};
                  {| goldap.DN := "cn=ops,ou=groups,dc=example";
                     goldap.Attributes := [] |} ] |};
     StartTLSProvider := None |}.

(** The POSIX configuration with a base for the groups. *)
Definition posixGroupConfig : ServerConfig :=
  {| Host := "ldap.example"; Port := 389;
     UseSSL := false; StartTLS := false; SkipVerifySSL := false;
     RootCACert := ""; ClientCert := ""; ClientKey := "";
     BindDN := "cn=admin,dc=example"; BindPassword := "adminpw";
     Attr := {| Username := "uid"; Name := ""; Surname := "";
                Email := ""; MemberOf := "" |};
     SearchFilter := "(uid=%s)";
     SearchBaseDNs := ["dc=example"];
     GroupSearchFilter := "(&(objectClass=posixGroup)(memberUid=%s))";
     GroupSearchFilterUserAttribute := "";
     GroupSearchBaseDNs := ["ou=groups,dc=example"; "ou=teams,dc=example"] |}.

(** A configuration with three search bases, and a directory that has
    carol under the second one only. *)
Definition threeBaseConfig : ServerConfig :=
  {| Host := "ldap.example"; Port := 389;
     UseSSL := false; StartTLS := false; SkipVerifySSL := false;
     RootCACert := ""; ClientCert := ""; ClientKey := "";
     BindDN := "cn=admin,dc=example"; BindPassword := "adminpw";
     Attr := sampleAttr; SearchFilter := "(uid=%s)";
     SearchBaseDNs :=
       ["ou=guests,dc=example"; "ou=staff,dc=example"; "ou=old,dc=example"];
     GroupSearchFilter := "";
     GroupSearchFilterUserAttribute := ""; GroupSearchBaseDNs := [] |}.

Definition staffDirectory : MockConnection :=
  {| BindProvider _ _ := None;
     UnauthenticatedBindProvider _ := None;
     SearchProvider req :=
       inl {| goldap.Entries :=
                if String.eqb (goldap.BaseDN req) "ou=staff,dc=example"
                then [carol] else [] |};
     StartTLSProvider := None |}.

(** The sample server with a CA file configured. *)
Definition caConfig : ServerConfig :=
  {| Host := "ldap1.example ldap2.example"; Port := 636;
     UseSSL := true; StartTLS := false; SkipVerifySSL := false;
     RootCACert := "/etc/ssl/ldap-ca.pem"; ClientCert := ""; ClientKey := "";
     BindDN := "cn=admin,dc=example"; BindPassword := "adminpw";
     Attr := sampleAttr; SearchFilter := "(uid=%s)";
     SearchBaseDNs := ["dc=example"]; GroupSearchFilter := "";
     GroupSearchFilterUserAttribute := ""; GroupSearchBaseDNs := [] |}.

(** The error [Dial] returns for a CA file that cannot be used. *)
Definition badCAError {N C} {EV : Env.Environment N C} (caCertFile : string)
  : error :=
  match Env.ReadFile (N := N) (C := C) caCertFile with
  | inr err => err
  | inl _ => OtherError ("Failed to append CA certificate " ++ caCertFile)
  end.

(** A call that [Users] may make for a list of logins: the search of one
    of its batches on one of the configured bases. *)
Definition batchSearch (Config : ServerConfig) (logins : list string)
    (x : Call) : Prop :=
  exists base i,
    In base (SearchBaseDNs Config) /\
    1 <= i <= (Z.of_nat (List.length logins) + 499) / 500 /\
    (List.length (batch logins i) <= 500)%nat /\
    x = CallSearch (searchRequest Config base (batch logins i)).

(** * Properties *)

(** ** Strings *)

Example Contains_placeholder :
  strings.Contains "uid=%s,dc=example" "%s" = true /\
  strings.Contains "cn=admin,dc=example" "%s" = false.
Proof. split; reflexivity. Qed.

Example ReplaceAll_every_placeholder :
  strings.ReplaceAll "(|(uid=%s)(mail=%s))" "%s" "bob"
  = "(|(uid=bob)(mail=bob))".
Proof. reflexivity. Qed.

Example Split_hosts :
  strings.Split "ldap1.example ldap2.example" " "
  = ["ldap1.example"; "ldap2.example"] /\
  strings.Split "" " " = [""].
Proof. split; reflexivity. Qed.

Example TrimSpace_both_ends :
  strings.TrimSpace "  Jane Doe  " = "Jane Doe" /\
  strings.TrimSpace "Jane " = "Jane" /\
  strings.TrimSpace (bytes [226; 128; 128; 74; 194; 160]%N) = "J".
Proof. repeat split; reflexivity. Qed.

Example hostAddress_brackets :
  hostAddress adminConfig "[::1]" = "[::1]:389" /\
  hostAddress adminConfig "ldap.example" = "ldap.example:389".
Proof. split; reflexivity. Qed.

Example Sprintf_fragment :
  fmt.Sprintf "uid=%s,dc=example" ["bob"] = Some "uid=bob,dc=example" /\
  fmt.Sprintf "uid=%s,ou=%s" ["bob"] = Some "uid=bob,ou=%!s(MISSING)" /\
  fmt.Sprintf "100%%" [] = Some "100%" /\
  fmt.Sprintf "%5s" ["bob"] = None.
Proof. repeat split; reflexivity. Qed.

Example EscapeFilter_metacharacters :
  goldap.EscapeFilter "a*(b)\c" = "a\2a\28b\29\5cc" /\
  goldap.EscapeFilter "carol" = "carol".
Proof. split; reflexivity. Qed.


Lemma append_assoc (a b c : string) : (a ++ b) ++ c = a ++ (b ++ c).
Proof. induction a as [|x a IH]; simpl; [reflexivity | now rewrite IH]. Qed.

Lemma append_empty_r (a : string) : a ++ "" = a.
Proof. induction a as [|x a IH]; simpl; [reflexivity | now rewrite IH]. Qed.

Lemma count_byte_append (c : ascii) (a b : string) :
  count_byte c (a ++ b) = (count_byte c a + count_byte c b)%nat.
Proof.
  induction a as [|x a IH]; simpl; [reflexivity |].
  rewrite IH. lia.
Qed.

Lemma prefix_drop (p s : string) :
  String.prefix p s = true -> s = p ++ drop (String.length p) s.
Proof.
  revert s. induction p as [|x p IH]; intros s H; simpl.
  - reflexivity.
  - destruct s as [|y s]; simpl in H; [discriminate |].
    destruct (ascii_dec x y) as [->|]; [| discriminate].
    simpl. f_equal. now apply IH.
Qed.

Lemma Sprintf_literal (s : string) :
  count_byte "%" s = 0%nat -> fmt.Sprintf s [] = Some s.
Proof.
  induction s as [|c s IH]; intros H; [reflexivity |].
  simpl in H. destruct (Ascii.eqb c "%") eqn:E; [discriminate |].
  assert (IH' := IH H).
  assert (Hc : c <> "%"%char) by (now apply Ascii.eqb_neq).
  destruct c as [[] [] [] [] [] [] [] []]; simpl; rewrite ?IH'; try reflexivity.
  now elim Hc.
Qed.

(** A template with one "%s" and no other directive is rendered by putting
    the operand in its place. *)
Lemma Sprintf_template (pre post a : string) :
  count_byte "%" pre = 0%nat -> count_byte "%" post = 0%nat ->
  fmt.Sprintf (pre ++ "%s" ++ post) [a] = Some (pre ++ a ++ post).
Proof.
  intros Hpre Hpost. induction pre as [|c pre IH].
  - simpl. now rewrite (Sprintf_literal post Hpost).
  - simpl in Hpre. destruct (Ascii.eqb c "%") eqn:E; [discriminate |].
    assert (IH' := IH Hpre).
    assert (Hc : c <> "%"%char) by (now apply Ascii.eqb_neq).
    destruct c as [[] [] [] [] [] [] [] []];
      try (now elim Hc);
      change (fmt.Sprintf (String ?x pre ++ "%s" ++ post) [a])
        with (fmt.Sprintf (String x (pre ++ "%s" ++ post)) [a]);
      cbn [fmt.Sprintf]; rewrite IH'; reflexivity.
Qed.

Lemma count_byte_replaceAll (c : ascii) (old new : string) :
  count_byte c old = 0%nat -> count_byte c new = 0%nat ->
  forall fuel s,
    count_byte c (strings.replaceAll fuel s old new) = count_byte c s.
Proof.
  intros Hold Hnew. induction fuel as [|f IH]; intros s; [reflexivity |].
  destruct s as [|a r]; [reflexivity |].
  cbn [strings.replaceAll].
  destruct (strings.HasPrefix (String a r) old) eqn:E.
  - rewrite count_byte_append, Hnew, IH.
    rewrite (prefix_drop old (String a r) E) at 2.
    rewrite count_byte_append, Hold. reflexivity.
  - simpl. now rewrite IH.
Qed.

Lemma hex_not_structural (a c : ascii) :
  structural c ->
  Ascii.eqb (goldap.hex (N.shiftr (byte_val a) 4)) c = false /\
  Ascii.eqb (goldap.hex (N.land (byte_val a) 15)) c = false.
Proof.
  intros [-> | [-> | ->]];
    destruct a as [[] [] [] [] [] [] [] []]; split; reflexivity.
Qed.

Lemma mustEscape_structural (c : ascii) :
  structural c -> goldap.mustEscape c = true.
Proof. intros [-> | [-> | ->]]; reflexivity. Qed.

Lemma count_byte_EscapeFilter (c : ascii) (login : string) :
  structural c -> count_byte c (goldap.EscapeFilter login) = 0%nat.
Proof.
  intros Hc. induction login as [|a r IH]; [reflexivity |].
  cbn [goldap.EscapeFilter].
  destruct (goldap.mustEscape a) eqn:E.
  - destruct (hex_not_structural a c Hc) as [H1 H2].
    cbn [count_byte]. rewrite H1, H2, IH.
    destruct Hc as [-> | [-> | ->]]; reflexivity.
  - cbn [count_byte]. rewrite IH.
    destruct (Ascii.eqb a c) eqn:Eac; [| reflexivity].
    apply Ascii.eqb_eq in Eac. subst a.
    rewrite (mustEscape_structural c Hc) in E. discriminate.
Qed.

Lemma count_byte_concat_fragments (c : ascii) (template : string)
    (logins : list string) :
  structural c ->
  count_byte c
    (String.concat ""
       (map (fun login =>
               strings.ReplaceAll template "%s" (goldap.EscapeFilter login))
          logins))
  = (List.length logins * count_byte c template)%nat.
Proof.
  intros Hc.
  assert (Hfrag : forall login,
             count_byte c
               (strings.ReplaceAll template "%s" (goldap.EscapeFilter login))
             = count_byte c template).
  { intros login. unfold strings.ReplaceAll.
    apply count_byte_replaceAll.
    - destruct Hc as [-> | [-> | ->]]; reflexivity.
    - now apply count_byte_EscapeFilter. }
  induction logins as [|l ls IH]; [reflexivity |].
  destruct ls as [|l' ls'].
  - simpl. rewrite Hfrag. lia.
  - change (String.concat "" (map ?f (l :: l' :: ls')))
      with (f l ++ "" ++ String.concat "" (map f (l' :: ls'))).
    rewrite count_byte_append, Hfrag.
    change ("" ++ ?x) with x.
    rewrite IH. simpl List.length. lia.
Qed.

Lemma appendIfNotEmpty_filter (values slice : list string) :
  appendIfNotEmpty slice values
  = (slice ++ filter (fun v => negb (String.eqb v "")) values)%list.
Proof.
  revert slice. induction values as [|v r IH]; intros slice; simpl.
  - now rewrite app_nil_r.
  - rewrite IH. destruct (String.eqb v ""); simpl; [reflexivity |].
    now rewrite <- app_assoc.
Qed.

Lemma fold_left_append_concat (f : string -> string) (logins : list string)
    (acc : string) :
  fold_left (fun search login => search ++ f login) logins acc
  = acc ++ String.concat "" (map f logins).
Proof.
  revert acc. induction logins as [|l ls IH]; intros acc; simpl.
  - now rewrite append_empty_r.
  - rewrite IH. destruct ls as [|l' ls']; simpl.
    + now rewrite !append_empty_r.
    + now rewrite append_assoc.
Qed.

(** [getSearchRequest] always returns, and returns [searchRequest]. *)
Lemma getSearchRequest_returns {S} (Config : ServerConfig) (base : string)
    (logins : list string) (s : S) :
  getSearchRequest Config base logins s
  = (Return (searchRequest Config base logins), s).
Proof.
  unfold getSearchRequest, searchRequest, bind, Sprintf.
  rewrite fold_left_append_concat.
  rewrite (Sprintf_template "(|" ")" _ eq_refl eq_refl).
  unfold ret. cbn [String.append].
  rewrite appendIfNotEmpty_filter. reflexivity.
Qed.

(** ** Computations on a recorded connection *)

Lemma record_run {C A} (what : Call) (op : C -> A * C) (r : Recorder C) :
  record what op r
  = (fst (op (inner r)),
     {| inner := snd (op (inner r)); calls := calls r ++ [what] |}).
Proof. unfold record. now destruct (op (inner r)). Qed.

Lemma userBind_run {C} {IC : Conn.IConnection C} (path password : string)
    (c : C) :
  userBind path password c
  = (Return (bindError (fst (Conn.Bind path password c))),
     snd (Conn.Bind path password c)).
Proof.
  unfold userBind, bind, call.
  destruct (Conn.Bind path password c) as [[e|] c']; simpl; [| reflexivity].
  destruct e; simpl; try reflexivity.
  now destruct (ResultCode =? 49).
Qed.

Lemma shouldAdminBind_true (Config : ServerConfig) :
  shouldAdminBind Config = true <-> BindPassword Config <> "".
Proof.
  unfold shouldAdminBind. rewrite negb_true_iff. apply String.eqb_neq.
Qed.

Lemma shouldAdminBind_false (Config : ServerConfig) :
  shouldAdminBind Config = false <-> BindPassword Config = "".
Proof.
  unfold shouldAdminBind. rewrite negb_false_iff. apply String.eqb_eq.
Qed.

Lemma Login_bind_admin {C} {IC : Conn.IConnection C} (Config : ServerConfig)
    (query : types.LoginData) (c : C) :
  shouldAdminBind Config = true ->
  Login_bind Config query c
  = (Return
       (bindError
          (fst (Conn.Bind (BindDN Config) (BindPassword Config) c)), false),
     snd (Conn.Bind (BindDN Config) (BindPassword Config) c)).
Proof.
  intros H. unfold Login_bind, AdminBind, bind. rewrite H, userBind_run.
  reflexivity.
Qed.

Lemma Login_bind_single {C} {IC : Conn.IConnection C} (Config : ServerConfig)
    (query : types.LoginData) (c : C) (dn : string) :
  shouldAdminBind Config = false -> shouldSingleBind Config = true ->
  fmt.Sprintf (BindDN Config) [types.Name query] = Some dn ->
  Login_bind Config query c
  = (Return
       (bindError (fst (Conn.Bind dn (types.Password query) c)), true),
     snd (Conn.Bind dn (types.Password query) c)).
Proof.
  intros Ha Hs Hdn.
  unfold Login_bind, UserBind, singleBindDN, Sprintf, bind.
  rewrite Ha, Hs, Hdn. unfold ret at 1. rewrite userBind_run. reflexivity.
Qed.

Lemma Login_bind_single_outside {C} {IC : Conn.IConnection C}
    (Config : ServerConfig) (query : types.LoginData) (c : C) :
  shouldAdminBind Config = false -> shouldSingleBind Config = true ->
  fmt.Sprintf (BindDN Config) [types.Name query] = None ->
  Login_bind Config query c = (Stopped FormatOutsideFragment, c).
Proof.
  intros Ha Hs Hdn.
  unfold Login_bind, UserBind, singleBindDN, Sprintf, bind.
  rewrite Ha, Hs, Hdn. reflexivity.
Qed.

Lemma Login_bind_unauthenticated {C} {IC : Conn.IConnection C}
    (Config : ServerConfig) (query : types.LoginData) (c : C) :
  shouldAdminBind Config = false -> shouldSingleBind Config = false ->
  Login_bind Config query c
  = (Return (fst (Conn.UnauthenticatedBind (BindDN Config) c), false),
     snd (Conn.UnauthenticatedBind (BindDN Config) c)).
Proof.
  intros Ha Hs. unfold Login_bind, bind, call. rewrite Ha, Hs.
  now destruct (Conn.UnauthenticatedBind (BindDN Config) c).
Qed.

(** C3.  The bind strategy is a function of the configuration alone, and
    one of three: the administrator's bind exactly when a bind password is
    set; the single bind exactly when the bind DN contains "%s" and no
    bind password is set; the unauthenticated bind in every other case.
    [Login] opens with exactly the one call of the selected strategy. *)
Theorem bind_strategy_selection (Config : ServerConfig) :
  (bindStrategy Config = AdminBindStrategy <-> BindPassword Config <> "") /\
  (bindStrategy Config = SingleBindStrategy <->
   strings.Contains (BindDN Config) "%s" = true /\ BindPassword Config = "") /\
  (bindStrategy Config = UnauthenticatedBindStrategy <->
   strings.Contains (BindDN Config) "%s" = false /\ BindPassword Config = "") /\
  (forall (C : Type) (IC : Conn.IConnection C) (query : types.LoginData)
          (r : Recorder C),
      match bindStrategy Config with
      | AdminBindStrategy =>
          exists err c',
            Login_bind Config query r
            = (Return (err, false),
               {| inner := c';
                  calls := calls r ++
                           [CallBind (BindDN Config) (BindPassword Config)] |})
      | SingleBindStrategy =>
          match fmt.Sprintf (BindDN Config) [types.Name query] with
          | Some dn =>
              exists err c',
                Login_bind Config query r
                = (Return (err, true),
                   {| inner := c';
                      calls := calls r ++
                               [CallBind dn (types.Password query)] |})
          | None => Login_bind Config query r = (Stopped FormatOutsideFragment, r)
          end
      | UnauthenticatedBindStrategy =>
          exists err c',
            Login_bind Config query r
            = (Return (err, false),
               {| inner := c';
                  calls := calls r ++
                           [CallUnauthenticatedBind (BindDN Config)] |})
      end).
Proof.
  unfold bindStrategy.
  destruct (shouldAdminBind Config) eqn:Ha.
  - assert (Hp := proj1 (shouldAdminBind_true Config) Ha).
    repeat split; try discriminate; try tauto.
    intros C IC query r. rewrite (Login_bind_admin _ _ _ Ha).
    cbn [Conn.Bind Recorder_IConnection]. rewrite record_run.
    eexists _, _. reflexivity.
  - assert (Hp := proj1 (shouldAdminBind_false Config) Ha).
    unfold shouldSingleBind in *.
    destruct (strings.Contains (BindDN Config) "%s") eqn:Hs.
    + repeat split; try discriminate; try tauto;
        try (intros [? ?]; discriminate).
      intros C IC query r.
      destruct (fmt.Sprintf (BindDN Config) [types.Name query]) as [dn|] eqn:E.
      * rewrite (Login_bind_single _ _ _ dn Ha Hs E).
        cbn [Conn.Bind Recorder_IConnection]. rewrite record_run.
        eexists _, _. reflexivity.
      * now apply Login_bind_single_outside.
    + repeat split; try discriminate; try tauto;
        try (intros [? ?]; discriminate).
      intros C IC query r.
      rewrite (Login_bind_unauthenticated _ _ _ Ha Hs).
      cbn [Conn.UnauthenticatedBind Recorder_IConnection].
      rewrite record_run. eexists _, _. reflexivity.
Qed.

(** ** The entry mapper *)

Lemma Sprintf_name_surname (a b : string) :
  fmt.Sprintf "%s %s" [a; b] = Some (a ++ " " ++ b).
Proof. cbn. now rewrite append_empty_r. Qed.

Lemma buildGoldenUser_returns {S} (Config : ServerConfig)
    (entry : goldap.Entry) (s : S) :
  buildGoldenUser Config entry s = (Return (Ok (goldenUser Config entry)), s).
Proof.
  unfold buildGoldenUser, bind, Sprintf. now rewrite Sprintf_name_surname.
Qed.

Lemma getAttribute_loop_absent (name : string)
    (attrs : list goldap.EntryAttribute) :
  Forall (fun attr => goldap.Name attr <> name \/ goldap.Values attr = [])
         attrs ->
  getAttribute_loop name attrs = "".
Proof.
  induction 1 as [|attr r [Hn | Hv] _ IH]; simpl; [reflexivity | |].
  - apply String.eqb_neq in Hn. now rewrite Hn.
  - rewrite Hv. now destruct (String.eqb (goldap.Name attr) name).
Qed.

(** C8.  The display name of the mapped user is the name attribute, a
    space and the surname attribute, trimmed; an attribute the entry does
    not carry (or carries without a value) contributes the empty string and
    the mapping still returns.  Jane Doe maps to "Jane Doe", and Jane
    without a surname to "Jane". *)
Theorem buildGoldenUser_display_name (Config : ServerConfig)
    (entry : goldap.Entry) :
  (forall (S : Type) (s : S),
      exists user,
        buildGoldenUser Config entry s = (Return (Ok user), s) /\
        models.Name user
        = strings.TrimSpace
            (getAttribute (Name (Attr Config)) entry ++ " " ++
             getAttribute (Surname (Attr Config)) entry) /\
        models.Email user = getAttribute (Email (Attr Config)) entry) /\
  (forall name,
      strings.ToLower name <> "dn" ->
      Forall (fun attr => goldap.Name attr <> name \/ goldap.Values attr = [])
             (goldap.Attributes entry) ->
      getAttribute name entry = "") /\
  buildGoldenUser adminConfig jane tt
  = (Return (Ok {| models.AuthModule := models.AuthModuleLDAP;
                   models.Name := "Jane Doe";
                   models.Email := "jane@x.com" |}), tt) /\
  getAttribute (Surname (Attr adminConfig)) janeNoSurname = "" /\
  buildGoldenUser adminConfig janeNoSurname tt
  = (Return (Ok {| models.AuthModule := models.AuthModuleLDAP;
                   models.Name := "Jane";
                   models.Email := "jane@x.com" |}), tt).
Proof.
  split; [| split; [| repeat split; rewrite ?buildGoldenUser_returns;
                      reflexivity]].
  - intros S s. exists (goldenUser Config entry).
    rewrite buildGoldenUser_returns. repeat split.
  - intros name Hdn Habs. unfold getAttribute.
    apply String.eqb_neq in Hdn. rewrite Hdn.
    now apply getAttribute_loop_absent.
Qed.

(** ** The search request *)

(** C5, as stated, fails on the attribute list: for a POSIX-schema
    configuration the request also asks for the attribute named by
    [GroupSearchFilterUserAttribute], which the attribute map does not
    bind. *)
Lemma getSearchRequest_attributes_beyond_map :
  exists req,
    getSearchRequest posixConfig "dc=example" ["bob"] tt = (Return req, tt) /\
    goldap.ReqAttributes req = ["uid"; "gidNumber"] /\
    In "gidNumber" (goldap.ReqAttributes req) /\
    ~ In "gidNumber" (mappedNames (Attr posixConfig)) /\
    goldap.ReqAttributes req
    <> filter (fun v => negb (String.eqb v ""))
         (mappedNames (Attr posixConfig)).
Proof.
  eexists. split; [apply getSearchRequest_returns |].
  repeat split.
  - simpl. auto.
  - simpl. intros H. repeat (destruct H as [H | H]; try discriminate).
    exact H.
  - discriminate.
Qed.

(** C5, amended.  For every base and batch of logins [getSearchRequest]
    returns the request whose filter is "(|", then for each login in order
    the per-user filter with every "%s" replaced by the filter-escaped
    login, then ")"; whose attributes are the non-empty names among
    username, surname, email, name and member-of of the attribute map,
    followed by the group-search user attribute if that is set; whose
    scope is the whole subtree and which never dereferences aliases.  The
    numbers of '(' , ')' and '*' in the filter are fixed by the template
    and the number of logins: no login changes them. *)
Theorem getSearchRequest_shape (Config : ServerConfig) (base : string)
    (logins : list string) :
  (forall (S : Type) (s : S),
      exists req,
        getSearchRequest Config base logins s = (Return req, s) /\
        goldap.BaseDN req = base /\
        goldap.Filter req
        = "(|" ++
          String.concat ""
            (map (fun login =>
                    strings.ReplaceAll (SearchFilter Config) "%s"
                      (goldap.EscapeFilter login)) logins) ++
          ")" /\
        goldap.ReqAttributes req
        = filter (fun v => negb (String.eqb v ""))
            [Username (Attr Config); Surname (Attr Config);
             Email (Attr Config); Name (Attr Config); MemberOf (Attr Config);
             GroupSearchFilterUserAttribute Config] /\
        goldap.Scope req = goldap.ScopeWholeSubtree /\
        goldap.DerefAliases req = goldap.NeverDerefAliases /\
        (forall c, structural c ->
           count_byte c (goldap.Filter req)
           = (count_byte c "(|)" +
              List.length logins * count_byte c (SearchFilter Config))%nat)) /\
  (forall login c, structural c ->
     count_byte c (goldap.EscapeFilter login) = 0%nat).
Proof.
  split.
  - intros S s. exists (searchRequest Config base logins).
    split; [apply getSearchRequest_returns |].
    repeat split.
    intros c Hc. cbn [goldap.Filter searchRequest].
    rewrite !count_byte_append, count_byte_concat_fragments by exact Hc.
    simpl. lia.
  - intros login c Hc. now apply count_byte_EscapeFilter.
Qed.

(** The request for a login made of filter syntax. *)
Lemma getSearchRequest_shape_witness :
  exists req,
    getSearchRequest adminConfig "dc=example" ["*)(uid=*"] tt
    = (Return req, tt) /\
    goldap.Filter req = "(|(uid=\2a\29\28uid=\2a))" /\
    count_byte "(" (goldap.Filter req) = 2%nat.
Proof.
  destruct (proj1 (getSearchRequest_shape adminConfig "dc=example"
                     ["*)(uid=*"]) unit tt)
    as (req & Hrun & _ & Hf & _ & _ & _ & Hc).
  exists req. split; [exact Hrun |]. split; [exact Hf |].
  rewrite (Hc "("%char (or_introl eq_refl)). reflexivity.
Defined.

(** ** Batches *)

Lemma int_float64 (z : Z) : int (float64 z) = z.
Proof. unfold int, float64. simpl. apply Z.quot_1_r. Qed.

Lemma int_Min (a b : Z) :
  int (math.Min (float64 a) (float64 b)) = Z.min a b.
Proof.
  unfold math.Min, Qmin, GenericMinMax.gmin, float64.
  unfold Qcompare. simpl Qnum. simpl Qden. rewrite !Z.mul_1_r.
  unfold Z.min. destruct (a ?= b); apply int_float64.
Qed.

Lemma ceil_quotient (n : Z) :
  (Qceiling (float64 n / float64 UsersMaxRequest)%Q = (n + 499) / 500)%Z.
Proof.
  unfold Qceiling, Qfloor, float64, UsersMaxRequest.
  cbn [Qdiv Qinv Qmult Qopp inject_Z Qnum Qden Pos.mul].
  rewrite Z.mul_1_r.
  change (Z.pos (1 * 500)) with 500.
  Z.div_mod_to_equations. lia.
Qed.

Lemma iterations_ceil (n : Z) :
  int (math.Ceil (float64 n / float64 UsersMaxRequest)%Q) = (n + 499) / 500.
Proof.
  unfold math.Ceil. fold (float64 (Qceiling (float64 n / float64 UsersMaxRequest)%Q)).
  rewrite int_float64. apply ceil_quotient.
Qed.

Lemma upFrom_S (i : Z) (k : nat) : upFrom i (S k) = i :: upFrom (i + 1) k.
Proof.
  unfold upFrom. simpl. rewrite Z.add_0_r. f_equal.
  rewrite <- seq_shift, map_map. apply map_ext. intros j. lia.
Qed.

Lemma upFrom_length (i : Z) (k : nat) : List.length (upFrom i k) = k.
Proof. unfold upFrom. now rewrite length_map, length_seq. Qed.

Lemma upFrom_nth_error (i : Z) (k j : nat) :
  (j < k)%nat -> nth_error (upFrom i k) j = Some (i + Z.of_nat j).
Proof.
  intros H. unfold upFrom. rewrite nth_error_map.
  rewrite nth_error_seq. destruct (Nat.ltb_spec j k); [reflexivity | lia].
Qed.

(** The loop runs its callback on the ranges of [i], [i + 1], ... up to
    [iterations], whatever the callback does with them, as long as it
    reports no error on the states it meets. *)
Lemma getUsersIteration_loop_ranges {St} (fn : Z -> Z -> M St (option error))
    (P : St -> Prop) (lenLogins : Z) :
  forall (k : nat) (i : Z) (s : St),
    P s ->
    (forall j s', In j (upFrom i k) -> P s' ->
        fst (fn (fst (batchRange lenLogins j)) (snd (batchRange lenLogins j)) s')
        = Return None /\
        P (snd (fn (fst (batchRange lenLogins j))
                   (snd (batchRange lenLogins j)) s'))) ->
    getUsersIteration_loop k lenLogins (i + Z.of_nat k - 1) i fn s
    = (Return None,
       fold_left
         (fun s' j =>
            snd (fn (fst (batchRange lenLogins j))
                    (snd (batchRange lenLogins j)) s'))
         (upFrom i k) s).
Proof.
  induction k as [|k IH]; intros i s Hs Hfn; [reflexivity |].
  cbn [getUsersIteration_loop].
  assert (Hlt : (i <? i + Z.of_nat (S k) - 1 + 1) = true) by (apply Z.ltb_lt; lia).
  rewrite Hlt, int_float64, int_Min. unfold bind.
  rewrite upFrom_S in Hfn |- *.
  destruct (Hfn i s (or_introl eq_refl) Hs) as [H0 H1].
  unfold batchRange in H0, H1. cbn [fst snd] in H0, H1.
  match goal with
  | |- context [let (_, _) := fn ?a ?b s in _] =>
      remember (fn a b s) as p eqn:E; destruct p as [o s1]
  end.
  cbn [fst snd] in H0, H1. subst o.
  replace (i + Z.of_nat (S k) - 1) with (i + 1 + Z.of_nat k - 1) by lia.
  rewrite IH.
  - cbn [fold_left]. do 2 f_equal.
    unfold batchRange. cbn [fst snd]. now rewrite <- E.
  - exact H1.
  - intros j s' Hj. apply Hfn. now right.
Qed.

Lemma getUsersIteration_ranges {St} (fn : Z -> Z -> M St (option error))
    (P : St -> Prop) (logins : list string) (s : St) :
  let n := Z.of_nat (List.length logins) in
  let k := Z.to_nat ((n + 499) / 500) in
  P s ->
  (forall j s', In j (upFrom 1 k) -> P s' ->
      fst (fn (fst (batchRange n j)) (snd (batchRange n j)) s')
      = Return None /\
      P (snd (fn (fst (batchRange n j)) (snd (batchRange n j)) s'))) ->
  getUsersIteration logins fn s
  = (Return None,
     fold_left
       (fun s' j => snd (fn (fst (batchRange n j)) (snd (batchRange n j)) s'))
       (upFrom 1 k) s).
Proof.
  intros n k Hs Hfn. unfold getUsersIteration. fold n.
  rewrite iterations_ceil. fold k.
  assert (Hk : (n + 499) / 500 = 1 + Z.of_nat k - 1).
  { unfold k. rewrite Z2Nat.id; [lia |].
    apply Z.div_pos; unfold n; lia. }
  rewrite Hk. now apply (getUsersIteration_loop_ranges fn P).
Qed.

Lemma fold_noteRange (n : Z) (js : list Z) (seen : list (Z * Z)) :
  fold_left
    (fun s' j =>
       snd (noteRange (fst (batchRange n j)) (snd (batchRange n j)) s'))
    js seen
  = (seen ++ map (batchRange n) js)%list.
Proof.
  revert seen. induction js as [|j js IH]; intros seen; cbn [fold_left map].
  - now rewrite app_nil_r.
  - rewrite IH. unfold noteRange. cbn [snd].
    rewrite <- surjective_pairing, <- app_assoc. reflexivity.
Qed.

Lemma noted_ranges (logins : list string) :
  let n := Z.of_nat (List.length logins) in
  getUsersIteration logins noteRange []
  = (Return None,
     map (batchRange n) (upFrom 1 (Z.to_nat ((n + 499) / 500)))).
Proof.
  intros n.
  rewrite (getUsersIteration_ranges noteRange (fun _ => True)) by easy.
  now rewrite fold_noteRange.
Qed.

(** ** Searching *)

Lemma slice_batchRange (logins : list string) (i : Z) :
  let n := Z.of_nat (List.length logins) in
  1 <= i <= (n + 499) / 500 ->
  slice logins (fst (batchRange n i)) (snd (batchRange n i))
  = Return (batch logins i).
Proof.
  intros n Hi. unfold slice, batch. fold n.
  unfold batchRange, UsersMaxRequest. cbn [fst snd].
  assert (H1 : (0 <=? 500 * (i - 1)) = true) by (apply Z.leb_le; lia).
  assert (H2 : (500 * (i - 1) <=? Z.min (i * 500) n) = true).
  { apply Z.leb_le. apply Z.min_glb; [lia |].
    Z.div_mod_to_equations. lia. }
  assert (H3 : (Z.min (i * 500) n <=? n) = true)
    by (apply Z.leb_le; apply Z.le_min_r).
  now rewrite H1, H2, H3.
Qed.

Lemma users_loop_calls {C} {IC : Conn.IConnection C} (Config : ServerConfig)
    (logins : list string) :
  forall (bases : list string) (result : option goldap.SearchResult)
         (r : Recorder C),
  exists k,
    (k <= List.length bases)%nat /\
    calls (snd (users_loop Config logins bases result r))
    = (calls r ++ searchCalls Config logins (firstn k bases))%list.
Proof.
  induction bases as [|base rest IH]; intros result r.
  - exists 0%nat. simpl. split; [lia | now rewrite app_nil_r].
  - cbn [users_loop]. unfold bind. rewrite getSearchRequest_returns.
    unfold call. cbn [Conn.Search Recorder_IConnection]. rewrite record_run.
    destruct (fst (Conn.Search (searchRequest Config base logins) (inner r)))
      as [res | err].
    + destruct (0 <? List.length (goldap.Entries res))%nat.
      * exists 1%nat. simpl. split; [lia | reflexivity].
      * destruct (IH (Some res)
                    {| inner := snd (Conn.Search
                                       (searchRequest Config base logins)
                                       (inner r));
                       calls := calls r ++
                                [CallSearch
                                   (searchRequest Config base logins)] |})
          as (k & Hk & Hc).
        exists (S k). split; [simpl; lia |].
        rewrite Hc. cbn [calls]. rewrite <- app_assoc. reflexivity.
    + exists 1%nat. simpl. split; [lia | reflexivity].
Qed.

Lemma users_state {C} {IC : Conn.IConnection C} (Config : ServerConfig)
    (logins : list string) (c : C) :
  snd (users Config logins c)
  = snd (users_loop Config logins (SearchBaseDNs Config) None c).
Proof.
  unfold users, bind.
  destruct (users_loop Config logins (SearchBaseDNs Config) None c)
    as [[[[res|]|e]|p] c']; reflexivity.
Qed.

(** Without a search base the loop of [users] does not run and the nil
    result is read. *)
Lemma users_no_base {C} {IC : Conn.IConnection C} (Config : ServerConfig)
    (logins : list string) (c : C) :
  SearchBaseDNs Config = [] ->
  users Config logins c = (Stopped PanicNilDereference, c).
Proof. intros H. unfold users, bind. rewrite H. reflexivity. Qed.

Lemma users_one_base {C} {IC : Conn.IConnection C} (Config : ServerConfig)
    (base : string) (logins : list string) (c : C) :
  SearchBaseDNs Config = [base] ->
  users Config logins c
  = (match fst (Conn.Search (searchRequest Config base logins) c) with
     | inl res => Return (Ok (goldap.Entries res))
     | inr err => Return (Err err)
     end,
     snd (Conn.Search (searchRequest Config base logins) c)).
Proof.
  intros H. unfold users, bind. rewrite H. cbn [users_loop]. unfold bind.
  rewrite getSearchRequest_returns. unfold call.
  destruct (Conn.Search (searchRequest Config base logins) c)
    as [[res | err] c']; cbn [fst snd]; [| reflexivity].
  now destruct (0 <? List.length (goldap.Entries res))%nat.
Qed.

Lemma Users_fn_run {C} {IC : Conn.IConnection C} (Config : ServerConfig)
    (logins : list string) (i : Z) (st : list goldap.Entry * C) :
  let n := Z.of_nat (List.length logins) in
  1 <= i <= (n + 499) / 500 ->
  Users_fn Config logins (fst (batchRange n i)) (snd (batchRange n i)) st
  = match users Config (batch logins i) (snd st) with
    | (Return (Ok entries), c') =>
        (Return None, ((fst st ++ entries)%list, c'))
    | (Return (Err err), c') => (Return (Some err), (fst st, c'))
    | (Stopped p, c') => (Stopped p, (fst st, c'))
    end.
Proof.
  intros n Hi. subst n. unfold Users_fn, bind, lift_outcome, on_snd.
  rewrite (slice_batchRange logins i Hi).
  destruct (users Config (batch logins i) (snd st)) as [[[entries|e]|p] c'];
    reflexivity.
Qed.

Lemma serializeUsers_loop_returns {S} (Config : ServerConfig) (s : S) :
  forall (entries : list goldap.Entry) (serialized : list models.User),
    serializeUsers_loop Config entries serialized s
    = (Return (Ok (serialized ++ map (goldenUser Config) entries)%list), s).
Proof.
  induction entries as [|e r IH]; intros serialized; cbn [serializeUsers_loop].
  - unfold ret. now rewrite app_nil_r.
  - unfold bind. rewrite buildGoldenUser_returns, IH, <- app_assoc.
    reflexivity.
Qed.

Lemma serializeUsers_returns {S} (Config : ServerConfig)
    (entries : list goldap.Entry) (s : S) :
  serializeUsers Config entries s
  = (Return (Ok (map (goldenUser Config) entries)), s).
Proof. unfold serializeUsers. now rewrite serializeUsers_loop_returns. Qed.

(** [Users] for one login: one batch. *)
Lemma Users_one_login {C} {IC : Conn.IConnection C} (Config : ServerConfig)
    (name : string) (c : C) :
  Users Config [name] c
  = match users Config [name] c with
    | (Return (Ok entries), c') =>
        (Return (Ok (map (goldenUser Config) entries)), c')
    | (Return (Err err), c') => (Return (Err err), c')
    | (Stopped p, c') => (Stopped p, c')
    end.
Proof.
  unfold Users, getUsersIteration.
  change (Z.of_nat (List.length [name])) with 1.
  change (int (math.Ceil (float64 1 / float64 UsersMaxRequest)%Q)) with 1.
  change (Z.to_nat 1) with 1%nat.
  cbn [getUsersIteration_loop].
  change (1 <? 1 + 1) with true. cbv iota. unfold bind.
  change (int (float64 (UsersMaxRequest * (1 - 1)))) with 0.
  change (int (math.Min (float64 (1 * UsersMaxRequest)) (float64 1))) with 1.
  unfold Users_fn, bind, lift_outcome, on_snd.
  change (slice [name] 0 1) with (Return [name]). cbn [snd fst].
  destruct (users Config [name] c) as [[[entries|e]|p] c']; try reflexivity.
  cbn [app ret fst snd]. rewrite serializeUsers_returns.
  now destruct entries.
Qed.

Lemma upFrom_In (i j : Z) (k : nat) :
  In j (upFrom i k) -> i <= j <= i + Z.of_nat k - 1.
Proof.
  unfold upFrom. rewrite in_map_iff. intros (x & <- & Hx).
  apply in_seq in Hx. lia.
Qed.

Lemma ceil_rounds (n : Z) :
  0 <= n -> Z.of_nat (Z.to_nat ((n + 499) / 500)) = (n + 499) / 500.
Proof. intros H. apply Z2Nat.id. apply Z.div_pos; lia. Qed.

Section OneBase.

Context {C : Type} {IC : Conn.IConnection C}.
Variable Config : ServerConfig.
Variable base : string.
Variable logins : list string.
Hypothesis one_base : SearchBaseDNs Config = [base].

(** The directory answers every search, in the states [Inv] it can be in. *)
Variable Inv : C -> Prop.
Hypothesis searches_succeed :
  forall req (c : C),
    Inv c ->
    (exists res, fst (Conn.Search req c) = inl res) /\
    Inv (snd (Conn.Search req c)).

Let n := Z.of_nat (List.length logins).

Lemma Users_fn_recorded (i : Z) (st : list goldap.Entry * Recorder C) :
  1 <= i <= (n + 499) / 500 ->
  Inv (inner (snd st)) ->
  let st' := snd (Users_fn Config logins (fst (batchRange n i))
                    (snd (batchRange n i)) st) in
  fst (Users_fn Config logins (fst (batchRange n i)) (snd (batchRange n i)) st)
  = Return None /\
  Inv (inner (snd st')) /\
  calls (snd st')
  = (calls (snd st) ++
     [CallSearch (searchRequest Config base (batch logins i))])%list.
Proof.
  intros Hi HI. unfold n in *. cbv zeta.
  rewrite (Users_fn_run Config logins i st Hi).
  rewrite (users_one_base Config base _ _ one_base).
  cbn [Conn.Search Recorder_IConnection]. rewrite record_run. cbn [fst snd].
  destruct (searches_succeed (searchRequest Config base (batch logins i))
              (inner (snd st)) HI) as [[res Hres] HI'].
  rewrite Hres. repeat split. exact HI'.
Qed.

Lemma Users_fold_recorded (js : list Z) :
  Forall (fun i => 1 <= i <= (n + 499) / 500) js ->
  forall st : list goldap.Entry * Recorder C,
    Inv (inner (snd st)) ->
    calls (snd (fold_left
                  (fun s' j =>
                     snd (Users_fn Config logins (fst (batchRange n j))
                            (snd (batchRange n j)) s'))
                  js st))
    = (calls (snd st) ++
       map (fun i => CallSearch (searchRequest Config base (batch logins i)))
           js)%list.
Proof.
  induction 1 as [|j js Hj _ IH]; intros st HI; cbn [fold_left map].
  - now rewrite app_nil_r.
  - destruct (Users_fn_recorded j st Hj HI) as (_ & HI' & Hc).
    rewrite IH by exact HI'. rewrite Hc.
    now rewrite <- app_assoc.
Qed.

Lemma Users_recorded (r : Recorder C) :
  Inv (inner r) ->
  exists found r',
    Users Config logins r = (Return (Ok found), r') /\
    calls r'
    = (calls r ++
       map (fun i => CallSearch (searchRequest Config base (batch logins i)))
           (upFrom 1 (Z.to_nat ((n + 499) / 500))))%list.
Proof.
  intros HI.
  assert (Hn : 0 <= n) by (unfold n; lia).
  assert (Hin : Forall (fun i => 1 <= i <= (n + 499) / 500)
                  (upFrom 1 (Z.to_nat ((n + 499) / 500)))).
  { apply Forall_forall. intros j Hj. apply upFrom_In in Hj.
    rewrite (ceil_rounds n Hn) in Hj. lia. }
  unfold Users.
  rewrite (getUsersIteration_ranges _
             (fun st : list goldap.Entry * Recorder C => Inv (inner (snd st)))).
  - fold n.
    set (final := fold_left _ _ _).
    assert (Hc := Users_fold_recorded _ Hin ([], r) HI). fold final in Hc.
    cbn [snd] in Hc.
    destruct (List.length (fst final) =? 0)%nat.
    + eexists _, _. split; [reflexivity | exact Hc].
    + rewrite serializeUsers_returns.
      eexists _, _. split; [reflexivity | exact Hc].
  - exact HI.
  - fold n. intros j s' Hj HI'.
    rewrite Forall_forall in Hin.
    destruct (Users_fn_recorded j s' (Hin j Hj) HI') as (H1 & H2 & _).
    split; assumption.
Qed.

End OneBase.

(** C4.  For a list of [n > 0] logins the callback of [getUsersIteration]
    is run on exactly ceil(n/500) index ranges, the [i]-th being
    [500*(i-1), min(500*i, n)); [Users], on a configuration with one search
    base and a directory that goes on answering every search, issues exactly one
    search per such range, in order, for the logins of that range.  For
    1200 logins the ranges are [0,500), [500,1000) and [1000,1200). *)
Theorem Users_batches (logins : list string) :
  let n := Z.of_nat (List.length logins) in
  let rounds := Qceiling (inject_Z n / inject_Z 500)%Q in
  0 < n ->
  (exists issued,
      getUsersIteration logins noteRange [] = (Return None, issued) /\
      Z.of_nat (List.length issued) = rounds /\
      (forall i, 1 <= i <= rounds ->
         nth_error issued (Z.to_nat (i - 1))
         = Some (500 * (i - 1), Z.min (500 * i) n))) /\
  (forall (C : Type) (IC : Conn.IConnection C) (Config : ServerConfig)
          (base : string) (c : C),
      SearchBaseDNs Config = [base] ->
      (exists Inv : C -> Prop,
          Inv c /\
          forall req c',
            Inv c' ->
            (exists res, fst (Conn.Search req c') = inl res) /\
            Inv (snd (Conn.Search req c'))) ->
      exists found r',
        Users Config logins (fresh c) = (Return (Ok found), r') /\
        Z.of_nat (List.length (calls r')) = rounds /\
        (forall i, 1 <= i <= rounds ->
           nth_error (calls r') (Z.to_nat (i - 1))
           = Some (CallSearch
                     (searchRequest Config base
                        (firstn (Z.to_nat (Z.min (500 * i) n - 500 * (i - 1)))
                           (skipn (Z.to_nat (500 * (i - 1))) logins)))))) /\
  (n = 1200 ->
   getUsersIteration logins noteRange []
   = (Return None, [(0, 500); (500, 1000); (1000, 1200)])).
Proof.
  intros n rounds Hn.
  assert (Hr : rounds = (n + 499) / 500) by apply ceil_quotient.
  assert (Hk : Z.of_nat (Z.to_nat ((n + 499) / 500)) = rounds)
    by (rewrite Hr; apply ceil_rounds; lia).
  assert (Hnth : forall i, 1 <= i <= rounds ->
             nth_error (upFrom 1 (Z.to_nat ((n + 499) / 500)))
               (Z.to_nat (i - 1)) = Some i).
  { intros i Hi. rewrite upFrom_nth_error by lia. f_equal. lia. }
  split; [| split].
  - exists (map (batchRange n) (upFrom 1 (Z.to_nat ((n + 499) / 500)))).
    split; [apply noted_ranges |].
    split.
    + now rewrite length_map, upFrom_length.
    + intros i Hi. rewrite nth_error_map, (Hnth i Hi). cbn [option_map].
      unfold batchRange, UsersMaxRequest. do 2 f_equal. lia.
  - intros C IC Config base c Hbase (Inv & HI & Hsearch).
    destruct (Users_recorded Config base logins Hbase Inv Hsearch (fresh c) HI)
      as (found & r' & Hrun & Hcalls).
    exists found, r'. split; [exact Hrun |].
    fold n in Hcalls. cbn [fresh calls app] in Hcalls. rewrite Hcalls.
    split.
    + now rewrite length_map, upFrom_length.
    + intros i Hi. rewrite nth_error_map, (Hnth i Hi). cbn [option_map].
      unfold batch, batchRange, UsersMaxRequest. fold n. cbn [fst snd].
      do 4 f_equal; f_equal; lia.
  - intros H1200. rewrite noted_ranges. fold n. rewrite H1200.
    reflexivity.
Qed.

(** 1200 logins go out in three batches, and in three searches on the
    sample directory. *)
Lemma Users_batches_witness :
  getUsersIteration (repeat "u" 1200) noteRange []
  = (Return None, [(0, 500); (500, 1000); (1000, 1200)]) /\
  exists found r',
    Users adminConfig (repeat "u" 1200) (fresh sampleDirectory)
    = (Return (Ok found), r') /\
    Z.of_nat (List.length (calls r')) = 3.
Proof.
  destruct (Users_batches (repeat "u" 1200) eq_refl) as (_ & HB & H1200).
  split; [apply H1200; reflexivity |].
  destruct (HB MockConnection _ adminConfig "dc=example" sampleDirectory
              eq_refl)
    as (found & r' & Hrun & Hlen & _).
  - exists (fun m => m = sampleDirectory). split; [reflexivity |].
    intros req c' ->. split; [| reflexivity].
    eexists. reflexivity.
  - exists found, r'. split; [exact Hrun | exact Hlen].
Defined.

(** ** [Login] *)

(** [Login], step by step. *)
Lemma Login_run {C} {IC : Conn.IConnection C} (Config : ServerConfig)
    (query : types.LoginData) (c : C) :
  Login Config query c
  = match Login_bind Config query c with
    | (Stopped p, c1) => (Stopped p, c1)
    | (Return (Some err, _), c1) => (Return (Err err), c1)
    | (Return (None, authAndBind), c1) =>
        match users Config [types.Name query] c1 with
        | (Stopped p, c2) => (Stopped p, c2)
        | (Return (Err err), c2) => (Return (Err err), c2)
        | (Return (Ok []), c2) => (Return (Err ErrCouldNotFindUser), c2)
        | (Return (Ok (entry :: _)), c2) =>
            let user := goldenUser Config entry in
            if authAndBind then (Return (Ok user), c2)
            else
              (match bindError
                       (fst (Conn.Bind (models.Name user)
                               (types.Password query) c2)) with
               | Some e => Return (Err e)
               | None => Return (Ok user)
               end,
               snd (Conn.Bind (models.Name user) (types.Password query) c2))
        end
    end.
Proof.
  unfold Login, bind.
  destruct (Login_bind Config query c) as [[[[err|] authAndBind]|p] c1];
    try reflexivity.
  rewrite Users_one_login.
  destruct (users Config [types.Name query] c1) as [[[entries|e]|p] c2];
    try reflexivity.
  destruct entries as [|entry rest]; [reflexivity |].
  cbn [map validateGoldenUser]. cbv zeta.
  destruct authAndBind; [reflexivity |].
  cbn [negb]. unfold UserBind. rewrite userBind_run.
  now destruct (bindError _).
Qed.

Lemma Users_no_base {C} {IC : Conn.IConnection C} (Config : ServerConfig)
    (logins : list string) (c : C) :
  SearchBaseDNs Config = [] -> logins <> [] ->
  Users Config logins c = (Stopped PanicNilDereference, c).
Proof.
  intros Hbase Hne. unfold Users, getUsersIteration.
  rewrite iterations_ceil.
  set (n := Z.of_nat (List.length logins)).
  assert (Hn : 1 <= n).
  { unfold n. destruct logins; [congruence | simpl List.length; lia]. }
  assert (Hc : 1 <= (n + 499) / 500) by (Z.div_mod_to_equations; lia).
  destruct (Z.to_nat ((n + 499) / 500)) as [|f] eqn:Ef; [lia |].
  cbn [getUsersIteration_loop].
  assert (Hlt : (1 <? (n + 499) / 500 + 1) = true) by (apply Z.ltb_lt; lia).
  rewrite Hlt, int_float64, int_Min. unfold bind.
  change (UsersMaxRequest * (1 - 1)) with (fst (batchRange n 1)).
  change (Z.min (1 * UsersMaxRequest) n) with (snd (batchRange n 1)).
  unfold n. rewrite Users_fn_run by (fold n; lia).
  cbn [snd]. rewrite (users_no_base Config _ c Hbase). reflexivity.
Qed.

(** C9.  On a configuration without search bases, [users] reads the
    entries of the result it never assigned: it stops with a nil
    dereference on every batch.  So does [Users] on every non-empty list
    of logins, and [Login] as soon as its bind has succeeded; [Login] never
    returns a user.  The sample directory shows the branch is reached. *)
Theorem no_search_base_nil_dereference (Config : ServerConfig) :
  SearchBaseDNs Config = [] ->
  (forall (C : Type) (IC : Conn.IConnection C) (c : C),
      (forall logins,
          users Config logins c = (Stopped PanicNilDereference, c)) /\
      (forall logins,
          logins <> [] ->
          Users Config logins c = (Stopped PanicNilDereference, c)) /\
      (forall query,
          (forall authAndBind c1,
              Login_bind Config query c = (Return (None, authAndBind), c1) ->
              Login Config query c = (Stopped PanicNilDereference, c1)) /\
          (forall user c1, Login Config query c <> (Return (Ok user), c1)))) /\
  Login baselessConfig {| types.Name := "carol"; types.Password := "secret" |}
    sampleDirectory
  = (Stopped PanicNilDereference, sampleDirectory).
Proof.
  intros Hbase. split; [| reflexivity].
  intros C IC c. split; [| split].
  - intros logins. now apply users_no_base.
  - intros logins Hne. now apply Users_no_base.
  - intros query. split.
    + intros authAndBind c1 Hb. rewrite Login_run, Hb.
      now rewrite (users_no_base Config _ c1 Hbase).
    + intros user c1. rewrite Login_run.
      destruct (Login_bind Config query c) as [[[[err|] authAndBind]|p] c0];
        try discriminate.
      rewrite (users_no_base Config _ c0 Hbase). discriminate.
Qed.

(** The sample server without search bases. *)
Lemma no_search_base_nil_dereference_witness :
  Users baselessConfig ["carol"] sampleDirectory
  = (Stopped PanicNilDereference, sampleDirectory).
Proof.
  apply (no_search_base_nil_dereference baselessConfig eq_refl).
  discriminate.
Defined.

Lemma Contains_template (pre post : string) :
  strings.Contains (pre ++ "%s" ++ post) "%s" = true.
Proof.
  induction pre as [|c pre IH].
  - now destruct post.
  - change (String c pre ++ "%s" ++ post) with (String c (pre ++ "%s" ++ post)).
    cbn [strings.Contains]. rewrite IH. apply orb_true_r.
Qed.

Lemma isBind_searchCalls (Config : ServerConfig) (logins bases : list string) :
  filter isBind (searchCalls Config logins bases) = [].
Proof. induction bases as [|b r IH]; [reflexivity | exact IH]. Qed.

(** The calls of [users] for one login on a recorded connection. *)
Lemma users_recorded {C} {IC : Conn.IConnection C} (Config : ServerConfig)
    (logins : list string) (r : Recorder C) :
  exists k,
    (k <= List.length (SearchBaseDNs Config))%nat /\
    calls (snd (users Config logins r))
    = (calls r ++
       searchCalls Config logins (firstn k (SearchBaseDNs Config)))%list.
Proof. rewrite users_state. apply users_loop_calls. Qed.

(** Single bind: the rendered DN is bound once, then only searches. *)
Lemma Login_single_recorded {C} {IC : Conn.IConnection C}
    (Config : ServerConfig) (query : types.LoginData) (c : C) (dn : string) :
  shouldAdminBind Config = false -> shouldSingleBind Config = true ->
  fmt.Sprintf (BindDN Config) [types.Name query] = Some dn ->
  exists k,
    (k <= List.length (SearchBaseDNs Config))%nat /\
    calls (snd (Login Config query (fresh c)))
    = CallBind dn (types.Password query)
      :: searchCalls Config [types.Name query]
           (firstn k (SearchBaseDNs Config)).
Proof.
  intros Ha Hs Hdn. rewrite Login_run.
  rewrite (Login_bind_single Config query (fresh c) dn Ha Hs Hdn).
  cbn [Conn.Bind Recorder_IConnection]. rewrite record_run. cbn [fst snd].
  destruct (bindError (fst (Conn.Bind dn (types.Password query)
                              (inner (fresh c))))).
  - exists 0%nat. split; [lia | reflexivity].
  - match goal with
    | |- context [users Config ?l ?r] =>
        destruct (users_recorded Config l r) as (k & Hk & Hc);
        destruct (users Config l r) as [[[[|e rest]|err]|p] c2]
    end; exists k; (split; [exact Hk | exact Hc]).
Qed.

(** C7.  Under a single-bind configuration (no bind password, "%s" in the
    bind DN) [Login] makes exactly one bind call on the connection, with
    the rendered bind DN and the supplied password, and after it only
    searches: no second bind verifies the user.  For a template with one
    "%s" the rendered DN is the template with the login in its place. *)
Theorem Login_single_bind_once (Config : ServerConfig)
    (query : types.LoginData) :
  BindPassword Config = "" ->
  strings.Contains (BindDN Config) "%s" = true ->
  (forall dn,
      fmt.Sprintf (BindDN Config) [types.Name query] = Some dn ->
      forall (C : Type) (IC : Conn.IConnection C) (c : C),
        (exists k,
            calls (snd (Login Config query (fresh c)))
            = CallBind dn (types.Password query)
              :: searchCalls Config [types.Name query]
                   (firstn k (SearchBaseDNs Config))) /\
        filter isBind (calls (snd (Login Config query (fresh c))))
        = [CallBind dn (types.Password query)]) /\
  (forall pre post,
      BindDN Config = pre ++ "%s" ++ post ->
      count_byte "%" pre = 0%nat -> count_byte "%" post = 0%nat ->
      fmt.Sprintf (BindDN Config) [types.Name query]
      = Some (pre ++ types.Name query ++ post)).
Proof.
  intros Hpw Hs. split.
  - intros dn Hdn C IC c.
    apply shouldAdminBind_false in Hpw.
    destruct (Login_single_recorded Config query c dn Hpw Hs Hdn)
      as (k & _ & Hc).
    split; [now exists k |].
    rewrite Hc. cbn [filter isBind]. now rewrite isBind_searchCalls.
  - intros pre post -> Hpre Hpost. now apply Sprintf_template.
Qed.

(** The single-bind sample: one bind as carol, one search. *)
Lemma Login_single_bind_once_witness :
  filter isBind
    (calls (snd (Login singleConfig
                   {| types.Name := "carol"; types.Password := "secret" |}
                   (fresh sampleDirectory))))
  = [CallBind "uid=carol,dc=example" "secret"].
Proof.
  destruct (Login_single_bind_once singleConfig
              {| types.Name := "carol"; types.Password := "secret" |}
              eq_refl eq_refl) as [Hcalls Hdn].
  apply (Hcalls "uid=carol,dc=example").
  apply (Hdn "uid=" ",dc=example"); reflexivity.
Defined.

Lemma Sprintf_other (c : ascii) (rest : string) (a : list string) :
  c <> "%"%char ->
  fmt.Sprintf (String c rest) a = option_map (String c) (fmt.Sprintf rest a).
Proof.
  intros Hc. destruct c as [[] [] [] [] [] [] [] []]; try reflexivity.
  now elim Hc.
Qed.

(** Whatever the format, within the fragment the one operand is in the
    output as it is. *)
Lemma Sprintf_operand_verbatim (a : string) :
  forall (n : nat) (format dn : string),
    (String.length format <= n)%nat ->
    fmt.Sprintf format [a] = Some dn ->
    exists l r, dn = l ++ a ++ r.
Proof.
  induction n as [|n IH]; intros format dn Hlen H.
  - destruct format; [| simpl in Hlen; lia].
    injection H as <-. now exists "%!(EXTRA string=", ")".
  - destruct format as [|c rest].
    + injection H as <-. now exists "%!(EXTRA string=", ")".
    + simpl in Hlen. destruct (ascii_dec c "%") as [-> | Hc].
      * destruct rest as [|verb rest].
        { injection H as <-. now exists "%!(NOVERB)%!(EXTRA string=", ")". }
        cbn [fmt.Sprintf] in H. simpl in Hlen.
        destruct (Ascii.eqb verb "%").
        { destruct (fmt.Sprintf rest [a]) as [x|] eqn:E; [| discriminate].
          injection H as <-.
          destruct (IH rest x ltac:(lia) E) as (l & r & ->).
          now exists (String "%" l), r. }
        destruct (Ascii.eqb verb "s" || Ascii.eqb verb "v"); [| discriminate].
        destruct (fmt.Sprintf rest []) as [x|]; [| discriminate].
        injection H as <-. now exists "", x.
      * rewrite (Sprintf_other c rest [a] Hc) in H.
        destruct (fmt.Sprintf rest [a]) as [x|] eqn:E; [| discriminate].
        injection H as <-.
        destruct (IH rest x ltac:(lia) E) as (l & r & ->).
        now exists (String c l), r.
Qed.

(** C10.  In single-bind mode the DN that [Login] binds is the bind DN
    rendered with the login as its operand: the login is in it byte for
    byte, DN syntax included, and for a template with one "%s" the bound
    DN is the template with the login in the place of "%s".  The search
    filter, in contrast, takes the login through [EscapeFilter], which
    leaves none of its structural bytes. *)
Theorem singleBindDN_verbatim (Config : ServerConfig) :
  BindPassword Config = "" ->
  strings.Contains (BindDN Config) "%s" = true ->
  forall name password : string,
    (forall dn,
        fmt.Sprintf (BindDN Config) [name] = Some dn ->
        (exists l r, dn = l ++ name ++ r) /\
        (forall (C : Type) (IC : Conn.IConnection C) (c : C),
            exists rest,
              calls (snd (Login Config
                            {| types.Name := name;
                               types.Password := password |}
                            (fresh c)))
              = CallBind dn password :: rest)) /\
    (forall pre post,
        BindDN Config = pre ++ "%s" ++ post ->
        count_byte "%" pre = 0%nat -> count_byte "%" post = 0%nat ->
        (forall (S : Type) (s : S),
            singleBindDN Config name s = (Return (pre ++ name ++ post), s)) /\
        (forall b,
            count_byte b (pre ++ name ++ post)
            = (count_byte b pre + count_byte b name + count_byte b post)%nat)) /\
    (forall b, structural b ->
        count_byte b (goldap.EscapeFilter name) = 0%nat).
Proof.
  intros Hpw Hs name password. split; [| split].
  - intros dn Hdn. split.
    + exact (Sprintf_operand_verbatim name _ _ dn (le_n _) Hdn).
    + intros C IC c. apply shouldAdminBind_false in Hpw.
      destruct (Login_single_recorded Config
                  {| types.Name := name; types.Password := password |}
                  c dn Hpw Hs Hdn) as (k & _ & Hc).
      eexists. exact Hc.
  - intros pre post Hdn Hpre Hpost. split.
    + intros S s. unfold singleBindDN, Sprintf.
      rewrite Hdn, Sprintf_template by assumption. reflexivity.
    + intros b. rewrite !count_byte_append. lia.
  - intros b Hb. now apply count_byte_EscapeFilter.
Qed.

(** A login that carries DN syntax is bound as it is. *)
Lemma singleBindDN_verbatim_witness :
  singleBindDN singleConfig "x,ou=admins" tt
  = (Return "uid=x,ou=admins,dc=example", tt) /\
  exists rest,
    calls (snd (Login singleConfig
                  {| types.Name := "x,ou=admins"; types.Password := "secret" |}
                  (fresh sampleDirectory)))
    = CallBind "uid=x,ou=admins,dc=example" "secret" :: rest.
Proof.
  destruct (singleBindDN_verbatim singleConfig eq_refl eq_refl
              "x,ou=admins" "secret") as (Hany & Hplain & _).
  split.
  - apply (Hplain "uid=" ",dc=example"); reflexivity.
  - apply (Hany "uid=x,ou=admins,dc=example" eq_refl).
Defined.

(** ** [Dial] *)

Lemma splitByte_nonempty (sep : ascii) (s cur : string) :
  strings.splitByte sep cur s <> [].
Proof.
  revert cur. induction s as [|c s IH]; intros cur; simpl; [discriminate |].
  destruct (Ascii.eqb c sep); [discriminate | apply IH].
Qed.

Lemma record_dial_run {N C} (withTLS : bool) (address : string)
    (op : N -> (C + error) * N) (r : NetRecorder N C) :
  record_dial withTLS address op r
  = (fst (op (network r)),
     {| network := snd (op (network r));
        dials := dials r ++ [{| dial_tls := withTLS;
                                dial_address := address;
                                dial_answer := fst (op (network r)) |}] |}).
Proof. unfold record_dial. now destruct (op (network r)). Qed.

Section DialRecorded.

Context {N C : Type} {IC : Conn.IConnection C} {EV : Env.Environment N C}.
Variable Config : ServerConfig.
Variable certPool : option x509.CertPool.
Variable clientCert : tls.Certificate.

(** One round dials once, at the address of its host, and its error is
    the error of that attempt. *)
Lemma Dial_host_recorded (host : string) (r : NetRecorder N C) :
  exists d,
    dials (snd (Dial_host Config certPool clientCert host r))
    = (dials r ++ [d])%list /\
    dial_address d = hostAddress Config host /\
    fst (fst (Dial_host Config certPool clientCert host r))
    = attemptError Config certPool clientCert host d /\
    (fst (fst (Dial_host Config certPool clientCert host r)) = None ->
     snd (fst (Dial_host Config certPool clientCert host r)) <> None).
Proof.
  unfold Dial_host, attemptError.
  cbn [Env.Dial Env.DialTLS NetRecorder_Environment].
  destruct (UseSSL Config); [destruct (StartTLS Config) |];
    rewrite record_dial_run; cbn [andb];
    match goal with
    | |- context [fst (?op (network r))] =>
        destruct (fst (op (network r))) as [c | err] eqn:E
    end;
    try (destruct (Conn.StartTLS _ c) as [e c'] eqn:Et);
    eexists; cbn [fst snd dials];
    (split; [reflexivity |]);
    cbn [dial_address dial_answer]; rewrite ?Et; cbn [fst];
    (split; [reflexivity |]); (split; [reflexivity |]); discriminate.
Qed.

(** The loop over the hosts: the hosts are dialled in order, every host
    before the last one dialled failed, and the loop returns the error of
    the last one, having gone through all hosts if that is an error. *)
Lemma Dial_hosts_recorded :
  forall (hosts : list string) (err : option error) (conn : option C)
         (r : NetRecorder N C),
    hosts <> [] ->
    exists before host after tried last,
      hosts = (before ++ host :: after)%list /\
      dials (snd (Dial_hosts Config certPool clientCert hosts err conn r))
      = (dials r ++ tried ++ [last])%list /\
      Forall2 (failedAttempt Config certPool clientCert) before tried /\
      dial_address last = hostAddress Config host /\
      fst (fst (Dial_hosts Config certPool clientCert hosts err conn r))
      = attemptError Config certPool clientCert host last /\
      (fst (fst (Dial_hosts Config certPool clientCert hosts err conn r))
       <> None -> after = []) /\
      (fst (fst (Dial_hosts Config certPool clientCert hosts err conn r))
       = None ->
       snd (fst (Dial_hosts Config certPool clientCert hosts err conn r))
       <> None).
Proof.
  induction hosts as [|h rest IH]; intros err conn r Hne; [congruence |].
  cbn [Dial_hosts].
  destruct (Dial_host_recorded h r) as (d & Hd & Ha & He & Hc).
  destruct (Dial_host Config certPool clientCert h r) as [[[e|] conn1] r1].
  - cbn [fst snd] in Hd, He, Hc.
    destruct rest as [|h' rest'].
    + exists [], h, [], [], d. cbn [Dial_hosts fst snd app].
      repeat split; try assumption. constructor.
    + destruct (IH (Some e) conn1 r1 ltac:(discriminate))
        as (before & host & after & tried & last &
            Hh & Hdl & Hf & Hal & Hel & Hall & Hconn).
      exists (h :: before), host, after, (d :: tried), last.
      repeat split; try assumption.
      * cbn [app]. now rewrite Hh.
      * rewrite Hdl, Hd, <- app_assoc. reflexivity.
      * constructor; [| exact Hf]. split; [exact Ha |].
        rewrite <- He. discriminate.
  - cbn [fst snd] in Hd, He, Hc |- *.
    exists [], h, rest, [], d. cbn [app].
    repeat split; try assumption.
    + constructor.
    + congruence.
Qed.

End DialRecorded.

(** C6.  With the certificate material loaded, [Dial] dials the hosts of
    the configuration in their listed order; every host dialled before the
    last one failed; the error [Dial] returns is the outcome of the last
    host dialled; when that host succeeded no later host is dialled and a
    connection is set, and when [Dial] returns an error every host has
    been dialled and the error is the one of the last host. *)
Theorem Dial_failover (N C : Type) (IC : Conn.IConnection C)
    (EV : Env.Environment N C) (Config : ServerConfig)
    (certPool : option x509.CertPool) (clientCert : tls.Certificate)
    (Connection : option C) (n : N) :
  loadRootCAs (N := NetRecorder N C) (C := C) Config = Ok certPool ->
  loadClientCert (N := NetRecorder N C) (C := C) Config = Ok clientCert ->
  let hosts := strings.Split (Host Config) " " in
  let run := Dial Config Connection {| network := n; dials := [] |} in
  exists before host after tried last,
    hosts = (before ++ host :: after)%list /\
    dials (snd run) = (tried ++ [last])%list /\
    map dial_address (dials (snd run))
    = map (hostAddress Config) (before ++ [host]) /\
    Forall2 (failedAttempt Config certPool clientCert) before tried /\
    fst (fst run) = attemptError Config certPool clientCert host last /\
    (fst (fst run) <> None -> after = []) /\
    (fst (fst run) = None -> snd (fst run) <> None).
Proof.
  intros Hca Hcert hosts run. unfold run, Dial. rewrite Hca, Hcert.
  destruct (Dial_hosts_recorded Config certPool clientCert
              (strings.Split (Host Config) " ") None Connection
              {| network := n; dials := [] |}
              (splitByte_nonempty _ _ _))
    as (before & host & after & tried & last &
        Hh & Hdl & Hf & Hal & Hel & Hall & Hconn).
  exists before, host, after, tried, last.
  cbn [dials app] in Hdl.
  repeat split; try assumption.
  rewrite Hdl, !map_app. cbn [map]. rewrite Hal. f_equal.
  clear -Hf. induction Hf as [|b t bs ts [Hb _] _ IH]; [reflexivity |].
  cbn [map]. now rewrite Hb, IH.
Qed.

(** The first sample host is down, the second answers: two dials, and the
    connection of the second. *)
Lemma Dial_failover_witness :
  Dial adminConfig None {| network := sampleNetwork; dials := [] |}
  = ((None, Some sampleDirectory),
     {| network := sampleNetwork;
        dials :=
          [ {| dial_tls := false; dial_address := "ldap1.example:389";
               dial_answer :=
                 inr (OtherError
                        "dial tcp ldap1.example:389: connection refused") |};
            {| dial_tls := false; dial_address := "ldap2.example:389";
               dial_answer := inl sampleDirectory |} ] |}) /\
  exists before host after,
    strings.Split (Host adminConfig) " " = (before ++ host :: after)%list /\
    map dial_address
      (dials (snd (Dial adminConfig None
                     {| network := sampleNetwork; dials := [] |})))
    = map (hostAddress adminConfig) (before ++ [host]).
Proof.
  split; [reflexivity |].
  destruct (Dial_failover MockNetwork MockConnection _ _ adminConfig None
              {| tls.Chain := [] |} None sampleNetwork eq_refl eq_refl)
    as (before & host & after & tried & last & Hh & _ & Hm & _).
  exists before, host, after. split; [exact Hh | exact Hm].
Defined.

(** ** Where [Login] departs from its description *)

(** An unknown login is answered with [ErrCouldNotFindUser]. *)
Lemma Login_no_entry {C} {IC : Conn.IConnection C} (Config : ServerConfig)
    (query : types.LoginData) (c c1 c2 : C) (authAndBind : bool) :
  Login_bind Config query c = (Return (None, authAndBind), c1) ->
  users Config [types.Name query] c1 = (Return (Ok []), c2) ->
  Login Config query c = (Return (Err ErrCouldNotFindUser), c2).
Proof. intros Hb Hu. now rewrite Login_run, Hb, Hu. Qed.

(** A verification bind refused with result code 49 is answered with
    [ErrInvalidCredentials]. *)
Lemma Login_wrong_password {C} {IC : Conn.IConnection C}
    (Config : ServerConfig) (query : types.LoginData) (c c1 c2 : C)
    (entry : goldap.Entry) (rest : list goldap.Entry) (text : string) :
  Login_bind Config query c = (Return (None, false), c1) ->
  users Config [types.Name query] c1 = (Return (Ok (entry :: rest)), c2) ->
  fst (Conn.Bind (models.Name (goldenUser Config entry))
         (types.Password query) c2) = Some (LdapError 49 text) ->
  fst (Login Config query c) = Return (Err ErrInvalidCredentials).
Proof.
  intros Hb Hu H49. rewrite Login_run, Hb, Hu. cbv zeta. cbn [fst].
  now rewrite H49.
Qed.

(** In the administrator's mode a login that succeeds has bound the
    administrator, searched, and bound once more: under the display name
    of the user it returns. *)
Lemma Login_admin_recorded {C} {IC : Conn.IConnection C}
    (Config : ServerConfig) (query : types.LoginData) (c : C)
    (user : models.User) (r' : Recorder C) :
  shouldAdminBind Config = true ->
  Login Config query (fresh c) = (Return (Ok user), r') ->
  exists k,
    calls r'
    = CallBind (BindDN Config) (BindPassword Config)
      :: (searchCalls Config [types.Name query]
            (firstn k (SearchBaseDNs Config))
          ++ [CallBind (models.Name user) (types.Password query)])%list.
Proof.
  intros Ha. rewrite Login_run, (Login_bind_admin Config query _ Ha).
  cbn [Conn.Bind Recorder_IConnection]. rewrite !record_run. cbn [fst snd].
  destruct (bindError _); [discriminate |].
  match goal with
  | |- context [users Config ?l ?r] =>
      destruct (users_recorded Config l r) as (k & _ & Hc);
      destruct (users Config l r) as [[[[|e rest]|err]|p] c2]
  end; try discriminate.
  cbv zeta. rewrite record_run. cbn [fst snd] in Hc |- *.
  destruct (bindError _); [discriminate |].
  intros H. injection H as <- <-. exists k. cbn [calls].
  rewrite Hc. reflexivity.
Qed.

(** C1.  The two rejections are different errors at [Login]: whenever the
    search finds no entry [Login] returns [ErrCouldNotFindUser], and
    whenever the directory refuses the verification bind with result code
    49 it returns [ErrInvalidCredentials].  On the sample directory a wrong
    password for alice gets the second and an unknown login the first; the
    two errors and their texts differ. *)
Theorem Login_not_found_is_told_apart :
  (forall (C : Type) (IC : Conn.IConnection C) (Config : ServerConfig)
          (query : types.LoginData) (c c1 c2 : C) (authAndBind : bool),
      Login_bind Config query c = (Return (None, authAndBind), c1) ->
      users Config [types.Name query] c1 = (Return (Ok []), c2) ->
      Login Config query c = (Return (Err ErrCouldNotFindUser), c2)) /\
  (forall (C : Type) (IC : Conn.IConnection C) (Config : ServerConfig)
          (query : types.LoginData) (c c1 c2 : C) (entry : goldap.Entry)
          (rest : list goldap.Entry) (text : string),
      Login_bind Config query c = (Return (None, false), c1) ->
      users Config [types.Name query] c1
      = (Return (Ok (entry :: rest)), c2) ->
      fst (Conn.Bind (models.Name (goldenUser Config entry))
             (types.Password query) c2) = Some (LdapError 49 text) ->
      fst (Login Config query c) = Return (Err ErrInvalidCredentials)) /\
  Login adminConfig
    {| types.Name := "alice"; types.Password := "wrong-password" |}
    sampleDirectory
  = (Return (Err ErrInvalidCredentials), sampleDirectory) /\
  Login adminConfig
    {| types.Name := "nonexistent-user"; types.Password := "anything" |}
    sampleDirectory
  = (Return (Err ErrCouldNotFindUser), sampleDirectory) /\
  ErrCouldNotFindUser <> ErrInvalidCredentials /\
  Error ErrCouldNotFindUser = "can't find user in LDAP" /\
  Error ErrInvalidCredentials = "invalid username or password".
Proof.
  split; [| split].
  - intros C IC Config query c c1 c2 authAndBind. apply Login_no_entry.
  - intros C IC Config query c c1 c2 entry rest text.
    apply Login_wrong_password.
  - repeat split; discriminate.
Qed.

(** C2.  In the administrator's mode the verification bind is made under
    the display name of the mapped user, not under the DN of the entry:
    a login that succeeds has bound the administrator, searched, and bound
    the display name of the user it returns; carol, whose DN and password
    the directory accepts, is bound as "Carol Smith" and rejected. *)
Theorem Login_admin_binds_display_name :
  (forall (C : Type) (IC : Conn.IConnection C) (Config : ServerConfig)
          (query : types.LoginData) (c : C) (user : models.User)
          (r' : Recorder C),
      BindPassword Config <> "" ->
      Login Config query (fresh c) = (Return (Ok user), r') ->
      exists k,
        calls r'
        = CallBind (BindDN Config) (BindPassword Config)
          :: (searchCalls Config [types.Name query]
                (firstn k (SearchBaseDNs Config))
              ++ [CallBind (models.Name user) (types.Password query)])%list) /\
  Login adminConfig {| types.Name := "carol"; types.Password := "secret" |}
    (fresh sampleDirectory)
  = (Return (Err ErrInvalidCredentials),
     {| inner := sampleDirectory;
        calls :=
          [CallBind "cn=admin,dc=example" "adminpw";
           CallSearch (searchRequest adminConfig "dc=example" ["carol"]);
           CallBind "Carol Smith" "secret"] |}) /\
  SearchProvider sampleDirectory
    (searchRequest adminConfig "dc=example" ["carol"])
  = inl {| goldap.Entries := [carol] |} /\
  goldap.DN carol = "uid=carol,dc=example" /\
  BindProvider sampleDirectory (goldap.DN carol) "secret" = None.
Proof.
  split.
  - intros C IC Config query c user r' Hpw.
    apply Login_admin_recorded. now apply shouldAdminBind_true.
  - repeat split.
Qed.

(** alice, whose name attribute holds her DN, is the login that the
    administrator's mode lets in. *)
Example Login_admin_alice :
  exists k,
    calls (snd (Login adminConfig
                  {| types.Name := "alice"; types.Password := "right" |}
                  (fresh sampleDirectory)))
    = CallBind "cn=admin,dc=example" "adminpw"
      :: (searchCalls adminConfig ["alice"]
            (firstn k (SearchBaseDNs adminConfig))
          ++ [CallBind "uid=alice,dc=example" "right"])%list.
Proof.
  apply (Login_admin_recorded adminConfig
           {| types.Name := "alice"; types.Password := "right" |}
           sampleDirectory
           {| models.AuthModule := models.AuthModuleLDAP;
              models.Name := "uid=alice,dc=example";
              models.Email := "alice@x.com" |}).
  - reflexivity.
  - reflexivity.
Qed.

(** The sample configurations, one for each strategy. *)
Example bind_strategy_samples :
  bindStrategy adminConfig = AdminBindStrategy /\
  bindStrategy singleConfig = SingleBindStrategy /\
  bindStrategy anonymousConfig = UnauthenticatedBindStrategy.
Proof. repeat split. Qed.

(** * Further properties *)

(** ** Attributes of an entry *)

Lemma getAttribute_loops_skip (name : string)
    (before : list goldap.EntryAttribute) :
  Forall (fun a => goldap.Name a <> name \/ goldap.Values a = []) before ->
  forall rest,
    getAttribute_loop name (before ++ rest) = getAttribute_loop name rest /\
    getArrayAttribute_loop name (before ++ rest)
    = getArrayAttribute_loop name rest.
Proof.
  induction 1 as [|a before [Hn | Hv] _ IH]; intros rest; cbn [app];
    [split; reflexivity | |];
    cbn [getAttribute_loop getArrayAttribute_loop].
  - apply String.eqb_neq in Hn. rewrite Hn. apply IH.
  - rewrite Hv. cbn [List.length Nat.ltb Nat.leb]. rewrite andb_false_r.
    destruct (String.eqb (goldap.Name a) name); apply IH.
Qed.

(** X1.  An attribute is read from the first attribute of the entry that
    has the asked name and at least one value: attributes of other names
    and attributes without a value before it are passed over, and later
    attributes of the same name are not looked at.  [getAttribute] gives
    the first value of that attribute, [getArrayAttribute] all of them. *)
Theorem getAttribute_first_with_value (name : string) (entry : goldap.Entry)
    (before after : list goldap.EntryAttribute) (attr : goldap.EntryAttribute)
    (v : string) (vs : list string) :
  strings.ToLower name <> "dn" ->
  goldap.Attributes entry = (before ++ attr :: after)%list ->
  Forall (fun a => goldap.Name a <> name \/ goldap.Values a = []) before ->
  goldap.Name attr = name ->
  goldap.Values attr = v :: vs ->
  getAttribute name entry = v /\ getArrayAttribute name entry = v :: vs.
Proof.
  intros Hdn Hattrs Hbefore Hname Hvalues.
  unfold getAttribute, getArrayAttribute.
  apply String.eqb_neq in Hdn. rewrite Hdn, Hattrs.
  destruct (getAttribute_loops_skip name before Hbefore (attr :: after))
    as [-> ->].
  cbn [getAttribute_loop getArrayAttribute_loop].
  rewrite Hname, String.eqb_refl, Hvalues. split; reflexivity.
Qed.

(** The mail of an entry that first carries an empty [mail] attribute and
    a [cn], then two [mail] attributes. *)
Lemma getAttribute_first_with_value_witness :
  let entry :=
    {| goldap.DN := "uid=dave,dc=example";
       goldap.Attributes :=
         [ {| goldap.Name := "mail"; goldap.Values := [] |};
           {| goldap.Name := "cn"; goldap.Values := ["Dave"] |};
           {| goldap.Name := "mail"; goldap.Values := ["d@x.com"; "d@y.com"] |};
           {| goldap.Name := "mail"; goldap.Values := ["old@x.com"] |} ] |} in
  getAttribute "mail" entry = "d@x.com" /\
  getArrayAttribute "mail" entry = ["d@x.com"; "d@y.com"].
Proof.
  intros entry.
  apply (getAttribute_first_with_value "mail" entry
           [ {| goldap.Name := "mail"; goldap.Values := [] |};
             {| goldap.Name := "cn"; goldap.Values := ["Dave"] |} ]
           [ {| goldap.Name := "mail"; goldap.Values := ["old@x.com"] |} ]
           {| goldap.Name := "mail"; goldap.Values := ["d@x.com"; "d@y.com"] |}
           "d@x.com" ["d@y.com"]).
  - discriminate.
  - reflexivity.
  - constructor; [right; reflexivity |].
    constructor; [left; discriminate | constructor].
  - reflexivity.
  - reflexivity.
Defined.

Lemma getAttribute_loop_head (name : string)
    (attrs : list goldap.EntryAttribute) :
  getAttribute_loop name attrs = hd "" (getArrayAttribute_loop name attrs).
Proof.
  induction attrs as [|a r IH]; [reflexivity |].
  cbn [getAttribute_loop getArrayAttribute_loop].
  destruct (String.eqb (goldap.Name a) name); cbn [andb]; [| exact IH].
  destruct (goldap.Values a) as [|v vs]; [exact IH | reflexivity].
Qed.

(** X2.  The single-valued reading of an attribute is always the head of
    its multi-valued reading (the empty string when there is none); and
    under the name "dn", in any case of the letters, both readings give
    the DN of the entry, whatever attributes the entry carries. *)
Theorem getAttribute_head_of_array (name : string) (entry : goldap.Entry) :
  getAttribute name entry = hd "" (getArrayAttribute name entry) /\
  (In name ["dn"; "DN"; "Dn"; "dN"] <-> strings.ToLower name = "dn") /\
  (strings.ToLower name = "dn" ->
   getAttribute name entry = goldap.DN entry /\
   getArrayAttribute name entry = [goldap.DN entry]).
Proof.
  split; [| split].
  - unfold getAttribute, getArrayAttribute.
    destruct (String.eqb (strings.ToLower name) "dn"); [reflexivity |].
    apply getAttribute_loop_head.
  - split.
    + intros [<- | [<- | [<- | [<- | []]]]]; reflexivity.
    + intros H. destruct name as [|a [|b [|c r]]]; try discriminate.
      cbn [strings.ToLower] in H. injection H as Ha Hb.
      assert (Ea : a = "d"%char \/ a = "D"%char).
      { destruct a as [[] [] [] [] [] [] [] []]; try discriminate Ha; auto. }
      assert (Eb : b = "n"%char \/ b = "N"%char).
      { destruct b as [[] [] [] [] [] [] [] []]; try discriminate Hb; auto. }
      destruct Ea as [-> | ->], Eb as [-> | ->]; simpl; auto.
  - intros H. unfold getAttribute, getArrayAttribute.
    apply String.eqb_eq in H. rewrite H. split; reflexivity.
Qed.

(** ** [Bind] and the opening of [Login] *)

Lemma Bind_run {C} {IC : Conn.IConnection C} (Config : ServerConfig) (c : C) :
  Bind Config c
  = if shouldAdminBind Config
    then (Return (bindError
                    (fst (Conn.Bind (BindDN Config) (BindPassword Config) c))),
          snd (Conn.Bind (BindDN Config) (BindPassword Config) c))
    else (Return (fst (Conn.UnauthenticatedBind (BindDN Config) c)),
          snd (Conn.UnauthenticatedBind (BindDN Config) c)).
Proof.
  unfold Bind, AdminBind. destruct (shouldAdminBind Config).
  - apply userBind_run.
  - unfold call. now destruct (Conn.UnauthenticatedBind (BindDN Config) c).
Qed.

(** X3.  [Bind] knows two strategies only.  When the configuration is not
    a single-bind one, the opening of [Login] is [Bind]: same call, same
    error, same state.  On a single-bind configuration [Bind] does not
    bind as a user: it makes one unauthenticated bind and passes the bind
    DN as it is configured, placeholder included. *)
Theorem Bind_is_Login_opening_but_for_single (Config : ServerConfig)
    (C : Type) (IC : Conn.IConnection C) (query : types.LoginData)
    (r : Recorder C) :
  (bindStrategy Config <> SingleBindStrategy ->
   Login_bind Config query r
   = (Return (match fst (Bind Config r) with
              | Return err => err
              | Stopped _ => None
              end, false),
      snd (Bind Config r))) /\
  (bindStrategy Config = SingleBindStrategy ->
   Bind Config r
   = (Return (fst (Conn.UnauthenticatedBind (BindDN Config) (inner r))),
      {| inner := snd (Conn.UnauthenticatedBind (BindDN Config) (inner r));
         calls := calls r ++ [CallUnauthenticatedBind (BindDN Config)] |})).
Proof.
  unfold bindStrategy. rewrite Bind_run.
  destruct (shouldAdminBind Config) eqn:Ha.
  - split; [| discriminate]. intros _.
    now rewrite (Login_bind_admin Config query r Ha).
  - destruct (shouldSingleBind Config) eqn:Hs.
    + split; [congruence |]. intros _.
      cbn [Conn.UnauthenticatedBind Recorder_IConnection].
      now rewrite record_run.
    + split; [| discriminate]. intros _.
      now rewrite (Login_bind_unauthenticated Config query r Ha Hs).
Qed.

(** On the single-bind sample [Bind] presents the template itself. *)
Lemma Bind_is_Login_opening_but_for_single_witness :
  Bind singleConfig (fresh sampleDirectory)
  = (Return None,
     {| inner := sampleDirectory;
        calls := [CallUnauthenticatedBind "uid=%s,dc=example"] |}) /\
  Login_bind adminConfig
    {| types.Name := "carol"; types.Password := "secret" |}
    (fresh sampleDirectory)
  = (Return (None, false),
     {| inner := sampleDirectory;
        calls := [CallBind "cn=admin,dc=example" "adminpw"] |}).
Proof.
  split.
  - exact (proj2 (Bind_is_Login_opening_but_for_single singleConfig
                    MockConnection _
                    {| types.Name := "carol"; types.Password := "secret" |}
                    (fresh sampleDirectory)) eq_refl).
  - refine (proj1 (Bind_is_Login_opening_but_for_single adminConfig
                     MockConnection _
                     {| types.Name := "carol"; types.Password := "secret" |}
                     (fresh sampleDirectory)) _).
    discriminate.
Defined.

(** The opening of [Login] makes exactly one call. *)
Lemma Login_bind_one_call {C} {IC : Conn.IConnection C}
    (Config : ServerConfig) (query : types.LoginData) (r : Recorder C)
    (bound : option error * bool) (r1 : Recorder C) :
  Login_bind Config query r = (Return bound, r1) ->
  exists opening,
    calls r1 = (calls r ++ [opening])%list /\ isSearch opening = false /\
    (snd bound = true <->
     shouldAdminBind Config = false /\ shouldSingleBind Config = true).
Proof.
  destruct (shouldAdminBind Config) eqn:Ha.
  - rewrite (Login_bind_admin Config query r Ha).
    cbn [Conn.Bind Recorder_IConnection]. rewrite record_run.
    intros H. injection H as <- <-. eexists. cbn [calls snd].
    repeat split; try easy; intros [? ?]; easy.
  - destruct (shouldSingleBind Config) eqn:Hs.
    + destruct (fmt.Sprintf (BindDN Config) [types.Name query]) as [dn|] eqn:E.
      * rewrite (Login_bind_single Config query r dn Ha Hs E).
        cbn [Conn.Bind Recorder_IConnection]. rewrite record_run.
        intros H. injection H as <- <-. eexists. cbn [calls snd].
        repeat split; try easy; intros [? ?]; easy.
      * rewrite (Login_bind_single_outside Config query r Ha Hs E).
        discriminate.
    + rewrite (Login_bind_unauthenticated Config query r Ha Hs).
      cbn [Conn.UnauthenticatedBind Recorder_IConnection]. rewrite record_run.
      intros H. injection H as <- <-. eexists. cbn [calls snd].
      repeat split; try easy; intros [? ?]; easy.
Qed.

(** X4.  A refused opening bind ends the attempt: [Login] returns the
    error of that bind after this one call, without any search.  The error
    is [ErrInvalidCredentials] when the administrator's or the single bind
    was answered with result code 49; the answer to an unauthenticated bind
    is passed on as it is, result code 49 included. *)
Theorem Login_refused_opening_bind (Config : ServerConfig)
    (C : Type) (IC : Conn.IConnection C) (query : types.LoginData) (c : C)
    (err : error) (authAndBind : bool) (r1 : Recorder C) :
  Login_bind Config query (fresh c) = (Return (Some err, authAndBind), r1) ->
  Login Config query (fresh c) = (Return (Err err), r1) /\
  (exists opening, calls r1 = [opening] /\ isSearch opening = false) /\
  (bindStrategy Config = UnauthenticatedBindStrategy ->
   fst (Conn.UnauthenticatedBind (BindDN Config) c) = Some err) /\
  (bindStrategy Config <> UnauthenticatedBindStrategy ->
   forall path, In (CallBind path (if authAndBind
                                   then types.Password query
                                   else BindPassword Config)) (calls r1) ->
     bindError (fst (Conn.Bind path (if authAndBind
                                     then types.Password query
                                     else BindPassword Config) c))
     = Some err).
Proof.
  intros Hb. split; [| split; [| split]].
  - now rewrite Login_run, Hb.
  - destruct (Login_bind_one_call Config query (fresh c) _ r1 Hb)
      as (opening & Hc & Hs & _).
    exists opening. split; [exact Hc | exact Hs].
  - unfold bindStrategy. destruct (shouldAdminBind Config) eqn:Ha;
      [discriminate |].
    destruct (shouldSingleBind Config) eqn:Hs; [discriminate |]. intros _.
    rewrite (Login_bind_unauthenticated Config query _ Ha Hs) in Hb.
    cbn [Conn.UnauthenticatedBind Recorder_IConnection] in Hb.
    rewrite record_run in Hb. now injection Hb as -> _ _.
  - unfold bindStrategy. destruct (shouldAdminBind Config) eqn:Ha.
    + intros _ path.
      rewrite (Login_bind_admin Config query _ Ha) in Hb.
      cbn [Conn.Bind Recorder_IConnection] in Hb. rewrite record_run in Hb.
      cbn [fst snd fresh inner calls app] in Hb.
      injection Hb as He <- <-. cbn [calls].
      intros [H | []]. injection H as <-. exact He.
    + destruct (shouldSingleBind Config) eqn:Hs; [| congruence].
      intros _ path.
      destruct (fmt.Sprintf (BindDN Config) [types.Name query]) as [dn|] eqn:E.
      * rewrite (Login_bind_single Config query _ dn Ha Hs E) in Hb.
        cbn [Conn.Bind Recorder_IConnection] in Hb. rewrite record_run in Hb.
        cbn [fst snd fresh inner calls app] in Hb.
        injection Hb as He <- <-. cbn [calls].
        intros [H | []]. injection H as <-. exact He.
      * rewrite (Login_bind_single_outside Config query _ Ha Hs E) in Hb.
        discriminate.
Qed.

(** A wrong password on the single-bind sample. *)
Lemma Login_refused_opening_bind_witness :
  Login singleConfig {| types.Name := "carol"; types.Password := "wrong" |}
    (fresh sampleDirectory)
  = (Return (Err ErrInvalidCredentials),
     {| inner := sampleDirectory;
        calls := [CallBind "uid=carol,dc=example" "wrong"] |}).
Proof.
  apply (Login_refused_opening_bind singleConfig MockConnection _
           {| types.Name := "carol"; types.Password := "wrong" |}
           sampleDirectory ErrInvalidCredentials true).
  reflexivity.
Defined.

(** ** The course of [Login] *)

(** X5.  Whatever the strategy and whatever the directory answers, the
    calls of [Login] come in one order: one opening bind, then searches of
    the requested login on a prefix of the configured bases, then at most
    one bind with the supplied password.  That last bind is never made on
    a single-bind configuration, and it is not followed by anything. *)
Theorem Login_call_order (Config : ServerConfig)
    (C : Type) (IC : Conn.IConnection C) (query : types.LoginData) (c : C) :
  (forall s, fst (Login_bind Config query (fresh c)) <> Stopped s) ->
  exists opening k closing,
    calls (snd (Login Config query (fresh c)))
    = opening
      :: (searchCalls Config [types.Name query]
            (firstn k (SearchBaseDNs Config)) ++ closing)%list /\
    isSearch opening = false /\
    (closing = [] \/
     exists path, closing = [CallBind path (types.Password query)]) /\
    (bindStrategy Config = SingleBindStrategy -> closing = []).
Proof.
  intros Hrun. rewrite Login_run.
  destruct (Login_bind Config query (fresh c)) as [[[err authAndBind]|p] r1]
    eqn:Hb; [| now elim (Hrun p)].
  destruct (Login_bind_one_call Config query (fresh c) _ r1 Hb)
    as (opening & Hc & Hs & Hflag).
  cbn [fresh calls app snd] in Hc, Hflag.
  assert (Hsingle : bindStrategy Config = SingleBindStrategy ->
                    authAndBind = true).
  { unfold bindStrategy. intros H. apply Hflag.
    destruct (shouldAdminBind Config); [discriminate |].
    destruct (shouldSingleBind Config); [easy | discriminate]. }
  exists opening.
  destruct err as [err|].
  - exists 0%nat, []. cbn [snd firstn searchCalls map app].
    repeat split; auto.
  - destruct (users_recorded Config [types.Name query] r1) as (k & _ & Hu).
    rewrite Hc in Hu.
    destruct (users Config [types.Name query] r1)
      as [[[[|entry rest]|e]|p] r2]; cbn [snd] in Hu |- *;
      try (exists k, []; rewrite app_nil_r; repeat split; auto; fail).
    cbv zeta. destruct authAndBind.
    + exists k, []. rewrite app_nil_r. cbn [snd]. repeat split; auto.
    + exists k, [CallBind (models.Name (goldenUser Config entry))
                   (types.Password query)].
      cbn [Conn.Bind Recorder_IConnection]. rewrite record_run.
      cbn [snd calls]. rewrite Hu. cbn [app].
      repeat split; auto.
      * right. now eexists.
      * intros H. now apply Hsingle in H.
Qed.

(** The calls of an anonymous login of carol. *)
Lemma Login_call_order_witness :
  exists opening k closing,
    calls (snd (Login anonymousConfig
                  {| types.Name := "carol"; types.Password := "secret" |}
                  (fresh sampleDirectory)))
    = opening
      :: (searchCalls anonymousConfig ["carol"]
            (firstn k (SearchBaseDNs anonymousConfig)) ++ closing)%list /\
    isSearch opening = false.
Proof.
  destruct (Login_call_order anonymousConfig MockConnection _
              {| types.Name := "carol"; types.Password := "secret" |}
              sampleDirectory)
    as (opening & k & closing & Hc & Hs & _).
  - intros s. discriminate.
  - exists opening, k, closing. split; [exact Hc | exact Hs].
Defined.

(** X6.  [Login] returns a user only after the directory has accepted a
    bind with the supplied password, and the user it returns is mapped
    from the first entry that the search found; further entries are not
    looked at. *)
Theorem Login_success (Config : ServerConfig)
    (C : Type) (IC : Conn.IConnection C) (query : types.LoginData) (c : C)
    (user : models.User) (r' : Recorder C) :
  Login Config query (fresh c) = (Return (Ok user), r') ->
  (exists path (c0 : C),
      In (CallBind path (types.Password query)) (calls r') /\
      fst (Conn.Bind path (types.Password query) c0) = None) /\
  (exists authAndBind r1 entry rest r2,
      Login_bind Config query (fresh c) = (Return (None, authAndBind), r1) /\
      users Config [types.Name query] r1 = (Return (Ok (entry :: rest)), r2) /\
      user = goldenUser Config entry).
Proof.
  rewrite Login_run.
  destruct (Login_bind Config query (fresh c)) as [[[[err|] authAndBind]|p] r1]
    eqn:Hb; try discriminate.
  destruct (users_recorded Config [types.Name query] r1) as (k & _ & Hu).
  destruct (users Config [types.Name query] r1)
    as [[[[|entry rest]|e]|p] r2] eqn:Hus; try discriminate.
  cbv zeta. cbn [snd] in Hu. destruct authAndBind.
  - intros H. injection H as <- <-. split.
    + destruct (Login_bind_one_call Config query (fresh c) _ r1 Hb)
        as (opening & Hc & _ & Hflag).
      destruct (proj1 Hflag eq_refl) as [Ha Hs].
      destruct (fmt.Sprintf (BindDN Config) [types.Name query])
        as [dn|] eqn:E.
      * rewrite (Login_bind_single Config query _ dn Ha Hs E) in Hb.
        cbn [Conn.Bind Recorder_IConnection] in Hb.
        rewrite record_run in Hb. injection Hb as He Hr1.
        exists dn, c. split.
        -- rewrite Hu, <- Hr1. cbn [calls fresh app]. now left.
        -- cbn [fresh inner] in He.
           destruct (fst (Conn.Bind dn (types.Password query) c))
             as [[]|]; try discriminate; try reflexivity.
           cbn [bindError] in He. destruct (ResultCode =? 49); discriminate.
      * rewrite (Login_bind_single_outside Config query _ Ha Hs E) in Hb.
        discriminate.
    + now exists true, r1, entry, rest, r2.
  - cbn [Conn.Bind Recorder_IConnection]. rewrite record_run.
    cbn [fst snd].
    destruct (bindError _) eqn:He; [discriminate |].
    intros H. injection H as <- <-. split.
    + exists (models.Name (goldenUser Config entry)), (inner r2). split.
      * cbn [calls]. apply in_or_app. right. now left.
      * destruct (fst (Conn.Bind _ (types.Password query) (inner r2)))
          as [[]|]; try discriminate; try reflexivity.
        cbn [bindError] in He. destruct (ResultCode =? 49); discriminate.
    + now exists false, r1, entry, rest, r2.
Qed.

(** alice is let in by the administrator's mode. *)
Lemma Login_success_witness :
  exists path c0,
    In (CallBind path "right")
       (calls (snd (Login adminConfig
                      {| types.Name := "alice"; types.Password := "right" |}
                      (fresh sampleDirectory)))) /\
    fst (Conn.Bind path "right" c0) = None.
Proof.
  exact (proj1 (Login_success adminConfig MockConnection _
                  {| types.Name := "alice"; types.Password := "right" |}
                  sampleDirectory _ _ eq_refl)).
Defined.

(** X7.  Without logins [Users] asks nothing of the directory and returns
    the empty list, not an error: also on a configuration without search
    bases, where any login makes it stop. *)
Theorem Users_no_logins (Config : ServerConfig)
    (C : Type) (IC : Conn.IConnection C) (r : Recorder C) :
  Users Config [] r = (Return (Ok []), r) /\
  (SearchBaseDNs Config = [] ->
   forall login, fst (Users Config [login] r) = Stopped PanicNilDereference).
Proof.
  split.
  - reflexivity.
  - intros Hbase login.
    now rewrite (Users_no_base Config [login] r Hbase).
Qed.

(** ** Batches, once more *)

Lemma upFrom_snoc (i : Z) (k : nat) :
  upFrom i (S k) = (upFrom i k ++ [i + Z.of_nat k])%list.
Proof. unfold upFrom. now rewrite seq_S, map_app. Qed.

Lemma firstn_then_next {A} (a b : nat) (l : list A) :
  (a <= b)%nat ->
  (firstn a l ++ firstn (b - a) (skipn a l))%list = firstn b l.
Proof.
  intros H. rewrite firstn_skipn_comm.
  replace (a + (b - a))%nat with b by lia.
  transitivity (firstn a (firstn b l) ++ skipn a (firstn b l))%list.
  - f_equal. rewrite firstn_firstn. f_equal. lia.
  - apply firstn_skipn.
Qed.

Lemma batches_prefix (logins : list string) :
  let n := Z.of_nat (List.length logins) in
  forall j : nat,
    Z.of_nat j <= (n + 499) / 500 ->
    List.concat (map (batch logins) (upFrom 1 j))
    = firstn (Z.to_nat (Z.min (500 * Z.of_nat j) n)) logins.
Proof.
  intros n. induction j as [|j IH]; intros Hj.
  - rewrite Z.min_l by (unfold n; lia). reflexivity.
  - rewrite upFrom_snoc, map_app, concat_app, IH by lia.
    cbn [map List.concat]. rewrite app_nil_r.
    unfold batch, batchRange, UsersMaxRequest. fold n. cbn [fst snd].
    assert (Hlt : 500 * Z.of_nat j < n) by (Z.div_mod_to_equations; lia).
    rewrite (Z.min_l (500 * Z.of_nat j) n) by lia.
    replace (500 * (1 + Z.of_nat j - 1)) with (500 * Z.of_nat j) by lia.
    replace (Z.min ((1 + Z.of_nat j) * 500) n)
      with (Z.min (500 * Z.of_nat (S j)) n) by (f_equal; lia).
    rewrite Z2Nat.inj_sub by lia.
    apply firstn_then_next. apply Z2Nat.inj_le; lia.
Qed.

Lemma batch_length (logins : list string) (i : Z) :
  let n := Z.of_nat (List.length logins) in
  1 <= i <= (n + 499) / 500 ->
  (1 <= List.length (batch logins i) <= 500)%nat.
Proof.
  intros n Hi. unfold batch, batchRange, UsersMaxRequest. fold n.
  cbn [fst snd]. rewrite length_firstn, length_skipn.
  assert (Hlt : 500 * (i - 1) < n) by (Z.div_mod_to_equations; lia).
  unfold n in *. lia.
Qed.

Lemma fold_noteBatch (logins : list string) (js : list Z) :
  let n := Z.of_nat (List.length logins) in
  Forall (fun i => 1 <= i <= (n + 499) / 500) js ->
  forall seen,
    fold_left
      (fun s' j =>
         snd (noteBatch logins (fst (batchRange n j)) (snd (batchRange n j))
                s'))
      js seen
    = (seen ++ map (batch logins) js)%list.
Proof.
  intros n. induction 1 as [|j js Hj _ IH]; intros seen; cbn [fold_left map].
  - now rewrite app_nil_r.
  - rewrite IH. unfold noteBatch, bind, lift_outcome. unfold n.
    rewrite (slice_batchRange logins j Hj). cbn [snd].
    now rewrite <- app_assoc.
Qed.

(** X8.  The ranges of [getUsersIteration] cut the list of logins into
    consecutive pieces: sliced as [Users] slices them and put end to end
    they are the list itself, so every login is searched in exactly one
    batch; and no batch is empty or has more than 500 logins. *)
Theorem batches_partition_logins (logins : list string) :
  exists batches,
    getUsersIteration logins (noteBatch logins) [] = (Return None, batches) /\
    List.concat batches = logins /\
    Forall (fun b => (1 <= List.length b <= 500)%nat) batches.
Proof.
  set (n := Z.of_nat (List.length logins)).
  set (k := Z.to_nat ((n + 499) / 500)).
  assert (Hn : 0 <= n) by (unfold n; lia).
  assert (Hk : Z.of_nat k = (n + 499) / 500) by (apply ceil_rounds; exact Hn).
  assert (Hin : Forall (fun i => 1 <= i <= (n + 499) / 500) (upFrom 1 k)).
  { apply Forall_forall. intros j Hj. apply upFrom_In in Hj. lia. }
  exists (map (batch logins) (upFrom 1 k)). split; [| split].
  - rewrite (getUsersIteration_ranges (noteBatch logins) (fun _ => True));
      fold n; fold k.
    + now rewrite (fold_noteBatch logins _ Hin).
    + exact I.
    + intros j s' Hj _. split; [| exact I].
      rewrite Forall_forall in Hin.
      unfold noteBatch, bind, lift_outcome. unfold n.
      now rewrite (slice_batchRange logins j (Hin j Hj)).
  - rewrite batches_prefix by (fold n; lia). fold n. rewrite Hk.
    rewrite Z.min_r by (Z.div_mod_to_equations; lia).
    unfold n. rewrite Nat2Z.id. apply firstn_all.
  - apply Forall_map. revert Hin. apply Forall_impl.
    intros i Hi. now apply batch_length.
Qed.

Lemma getUsersIteration_loop_until (n : Z) (err : error) (j : Z) :
  forall (k : nat) (i : Z) (seen : list (Z * Z)),
    i <= j <= i + Z.of_nat k - 1 ->
    getUsersIteration_loop k n (i + Z.of_nat k - 1) i
      (noteRangeUntil (UsersMaxRequest * (j - 1)) err) seen
    = (Return (Some err),
       (seen ++ map (batchRange n) (upFrom i (Z.to_nat (j - i + 1))))%list).
Proof.
  induction k as [|k IH]; intros i seen Hj; [lia |].
  cbn [getUsersIteration_loop].
  assert (Hlt : (i <? i + Z.of_nat (S k) - 1 + 1) = true)
    by (apply Z.ltb_lt; lia).
  rewrite Hlt, int_float64, int_Min. unfold bind, noteRangeUntil.
  destruct (Z.eqb_spec (UsersMaxRequest * (i - 1)) (UsersMaxRequest * (j - 1)))
    as [E | E].
  - assert (i = j) by (unfold UsersMaxRequest in E; lia). subst j.
    replace (i - i + 1) with 1 by lia.
    change (Z.to_nat 1) with 1%nat. rewrite upFrom_S. reflexivity.
  - assert (i < j) by (unfold UsersMaxRequest in E; lia).
    replace (i + Z.of_nat (S k) - 1) with (i + 1 + Z.of_nat k - 1) by lia.
    rewrite IH by lia.
    replace (Z.to_nat (j - i + 1)) with (S (Z.to_nat (j - (i + 1) + 1)))
      by lia.
    rewrite upFrom_S. cbn [map]. rewrite <- app_assoc. reflexivity.
Qed.

(** X9.  An error of the callback ends [getUsersIteration] at once: when
    the callback fails on the [j]-th range, the ranges run are the first
    [j] and no more, and the error returned is the callback's. *)
Theorem getUsersIteration_stops_at_error (logins : list string) (err : error)
    (j : Z) :
  let n := Z.of_nat (List.length logins) in
  1 <= j <= (n + 499) / 500 ->
  getUsersIteration logins (noteRangeUntil (UsersMaxRequest * (j - 1)) err) []
  = (Return (Some err), map (batchRange n) (upFrom 1 (Z.to_nat j))).
Proof.
  intros n Hj. unfold getUsersIteration. fold n. rewrite iterations_ceil.
  assert (Hk : (n + 499) / 500
               = 1 + Z.of_nat (Z.to_nat ((n + 499) / 500)) - 1) by lia.
  rewrite Hk at 2.
  rewrite getUsersIteration_loop_until by lia.
  cbn [app]. do 3 f_equal. lia.
Qed.

(** Of 1200 logins the third batch is not asked for when the second
    fails. *)
Lemma getUsersIteration_stops_at_error_witness :
  getUsersIteration (repeat "u" 1200)
    (noteRangeUntil 500 (OtherError "search failed")) []
  = (Return (Some (OtherError "search failed")), [(0, 500); (500, 1000)]).
Proof.
  apply (getUsersIteration_stops_at_error (repeat "u" 1200)
           (OtherError "search failed") 2).
  split; vm_compute; discriminate.
Defined.

(** ** What [Users] and [users] return *)

Lemma Users_fold_found {C} {IC : Conn.IConnection C} (Config : ServerConfig)
    (logins : list string) (c : C) (found : Z -> list goldap.Entry)
    (js : list Z) :
  let n := Z.of_nat (List.length logins) in
  (forall i, 1 <= i <= (n + 499) / 500 ->
     users Config (batch logins i) c = (Return (Ok (found i)), c)) ->
  Forall (fun i => 1 <= i <= (n + 499) / 500) js ->
  forall st : list goldap.Entry * C,
    snd st = c ->
    fold_left
      (fun s' j =>
         snd (Users_fn Config logins (fst (batchRange n j))
                (snd (batchRange n j)) s'))
      js st
    = ((fst st ++ flat_map found js)%list, c).
Proof.
  intros n Hfound. induction 1 as [|j js Hj _ IH]; intros st Hst;
    cbn [fold_left flat_map].
  - rewrite app_nil_r, <- Hst. now destruct st.
  - subst n. rewrite (Users_fn_run Config logins j st Hj).
    rewrite Hst, (Hfound j Hj). cbn [snd].
    rewrite IH by reflexivity. cbn [fst]. now rewrite <- app_assoc.
Qed.

(** X10.  On a directory that a search leaves as it was, [Users] returns
    the users mapped from the entries of all batches, batch after batch in
    the order found and without merging duplicates; when no batch has an
    entry this is the empty list and no error. *)
Theorem Users_collects_batches (Config : ServerConfig)
    (C : Type) (IC : Conn.IConnection C) (logins : list string) (c : C)
    (found : Z -> list goldap.Entry) :
  let n := Z.of_nat (List.length logins) in
  (forall i, 1 <= i <= (n + 499) / 500 ->
     users Config (batch logins i) c = (Return (Ok (found i)), c)) ->
  Users Config logins c
  = (Return (Ok (map (goldenUser Config)
                   (flat_map found (upFrom 1 (Z.to_nat ((n + 499) / 500)))))),
     c).
Proof.
  intros n Hfound.
  assert (Hn : 0 <= n) by (unfold n; lia).
  assert (Hin : Forall (fun i => 1 <= i <= (n + 499) / 500)
                  (upFrom 1 (Z.to_nat ((n + 499) / 500)))).
  { apply Forall_forall. intros j Hj. apply upFrom_In in Hj.
    rewrite (ceil_rounds n Hn) in Hj. lia. }
  subst n. unfold Users.
  rewrite (getUsersIteration_ranges _
             (fun st : list goldap.Entry * C => snd st = c)).
  - rewrite (Users_fold_found Config logins c found _ Hfound Hin ([], c) eq_refl).
    cbn [fst snd app].
    destruct (flat_map found _) as [|e es] eqn:E; [reflexivity |].
    cbn [List.length Nat.eqb]. apply serializeUsers_returns.
  - reflexivity.
  - intros j s' Hj Hs'.
    rewrite Forall_forall in Hin.
    rewrite (Users_fn_run Config logins j s' (Hin j Hj)).
    rewrite Hs', (Hfound j (Hin j Hj)). split; reflexivity.
Qed.

(** carol, looked up on the sample directory. *)
Lemma Users_collects_batches_witness :
  Users adminConfig ["carol"] sampleDirectory
  = (Return (Ok [goldenUser adminConfig carol]), sampleDirectory).
Proof.
  apply (Users_collects_batches adminConfig MockConnection _ ["carol"]
           sampleDirectory (fun _ => [carol])).
  intros i Hi.
  change ((Z.of_nat (List.length ["carol"]) + 499) / 500) with 1 in Hi.
  assert (i = 1) as -> by lia. reflexivity.
Defined.

Lemma users_loop_skip_empty {C} {IC : Conn.IConnection C}
    (Config : ServerConfig) (logins : list string) (c : C)
    (rest : list string) :
  forall (before : list string) (result : option goldap.SearchResult)
         (r : Recorder C),
    inner r = c ->
    (forall b, In b before ->
       exists res,
         Conn.Search (searchRequest Config b logins) c = (inl res, c) /\
         goldap.Entries res = []) ->
    exists result',
      users_loop Config logins (before ++ rest) result r
      = users_loop Config logins rest result'
          {| inner := c;
             calls := calls r ++ searchCalls Config logins before |}.
Proof.
  induction before as [|b before IH]; intros result r Hr Hempty.
  - exists result. cbn [app searchCalls map]. rewrite app_nil_r, <- Hr.
    now destruct r.
  - destruct (Hempty b (or_introl eq_refl)) as (res & Hs & He).
    cbn [app users_loop]. unfold bind. rewrite getSearchRequest_returns.
    unfold call. cbn [Conn.Search Recorder_IConnection].
    rewrite record_run, Hr, Hs. cbn [fst snd]. rewrite He.
    cbn [List.length Nat.ltb Nat.leb].
    destruct (IH (Some res)
                {| inner := c;
                   calls := calls r ++
                            [CallSearch (searchRequest Config b logins)] |}
                eq_refl (fun b' Hb' => Hempty b' (or_intror Hb')))
      as (result' & Hloop).
    exists result'. rewrite Hloop. cbn [calls searchCalls map].
    now rewrite <- app_assoc.
Qed.

(** X11.  [users] takes the answer of the first search base that has
    entries for the batch: the bases before it, which answered without
    entries, have been searched in order, and the bases after it are not
    searched.  An error of a base is returned in the same way; and when
    the last base answers without entries either, the result is the empty
    list, not an error. *)
Theorem users_first_base_with_entries (Config : ServerConfig)
    (C : Type) (IC : Conn.IConnection C) (logins : list string) (c c' : C)
    (before after : list string) (base : string)
    (answer : goldap.SearchResult + error) :
  SearchBaseDNs Config = (before ++ base :: after)%list ->
  (forall b, In b before ->
     exists res,
       Conn.Search (searchRequest Config b logins) c = (inl res, c) /\
       goldap.Entries res = []) ->
  Conn.Search (searchRequest Config base logins) c = (answer, c') ->
  match answer with
  | inl res => goldap.Entries res <> [] \/ after = []
  | inr _ => True
  end ->
  users Config logins (fresh c)
  = (match answer with
     | inl res => Return (Ok (goldap.Entries res))
     | inr err => Return (Err err)
     end,
     {| inner := c';
        calls := searchCalls Config logins (before ++ [base]) |}).
Proof.
  intros Hbases Hempty Hs Hlast. unfold users, bind. rewrite Hbases.
  destruct (users_loop_skip_empty Config logins c (base :: after) before None
              (fresh c) eq_refl Hempty) as (result' & ->).
  cbn [users_loop fresh calls app]. unfold bind.
  rewrite getSearchRequest_returns. unfold call.
  cbn [Conn.Search Recorder_IConnection]. rewrite record_run.
  cbn [inner calls]. rewrite Hs. cbn [fst snd].
  unfold searchCalls. rewrite map_app. cbn [map].
  destruct answer as [res | err]; [| reflexivity].
  destruct (goldap.Entries res) as [|e es] eqn:E.
  - destruct Hlast as [H | ->]; [congruence |].
    cbn [List.length Nat.ltb Nat.leb users_loop]. unfold ret. now rewrite E.
  - cbn [List.length Nat.ltb Nat.leb]. unfold ret. now rewrite E.
Qed.

(** carol is found under the second of three bases; the third is not
    searched. *)
Lemma users_first_base_with_entries_witness :
  users threeBaseConfig ["carol"] (fresh staffDirectory)
  = (Return (Ok [carol]),
     {| inner := staffDirectory;
        calls :=
          searchCalls threeBaseConfig ["carol"]
            ["ou=guests,dc=example"; "ou=staff,dc=example"] |}).
Proof.
  apply (users_first_base_with_entries threeBaseConfig MockConnection _
           ["carol"] staffDirectory staffDirectory
           ["ou=guests,dc=example"] ["ou=old,dc=example"]
           "ou=staff,dc=example" (inl {| goldap.Entries := [carol] |})).
  - reflexivity.
  - intros b [<- | []]. eexists. split; reflexivity.
  - reflexivity.
  - left. discriminate.
Defined.

(** ** [Dial], before and while it dials *)

Lemma appendCAs_bad {N C} {EV : Env.Environment N C}
    (file : string) (after : list string) :
  match Env.ReadFile (N := N) (C := C) file with
  | inr _ => True
  | inl pem => Env.CertsFromPEM (N := N) (C := C) pem = []
  end ->
  forall (before : list string) (certPool : x509.CertPool),
    (forall f, In f before ->
       exists pem,
         Env.ReadFile (N := N) (C := C) f = inl pem /\
         Env.CertsFromPEM (N := N) (C := C) pem <> []) ->
    appendCAs (N := N) (C := C) (before ++ file :: after) certPool
    = Err (badCAError (N := N) (C := C) file).
Proof.
  intros Hbad. induction before as [|f before IH]; intros certPool Hgood.
  - cbn [app appendCAs]. unfold badCAError.
    destruct (Env.ReadFile file) as [pem | err]; [| reflexivity].
    now rewrite Hbad.
  - destruct (Hgood f (or_introl eq_refl)) as (pem & Hr & Hc).
    cbn [app appendCAs]. rewrite Hr.
    destruct (Env.CertsFromPEM pem) as [|cert certs] eqn:E; [congruence |].
    apply IH. intros f' Hf'. apply Hgood. now right.
Qed.

(** X12.  One CA file that cannot be read, or that holds no certificate,
    makes [Dial] fail before it dials: the error of that file is returned
    (the first such file in the list, the files before it having been
    accepted), no host is tried, and [server.Connection] is left as it
    was. *)
Theorem Dial_bad_CA_file_dials_nothing (N C : Type)
    (IC : Conn.IConnection C) (EV : Env.Environment N C)
    (Config : ServerConfig) (Connection : option C) (n : N)
    (before after : list string) (file : string) :
  RootCACert Config <> "" ->
  strings.Split (RootCACert Config) " " = (before ++ file :: after)%list ->
  (forall f, In f before ->
     exists pem,
       Env.ReadFile (N := N) (C := C) f = inl pem /\
       Env.CertsFromPEM (N := N) (C := C) pem <> []) ->
  match Env.ReadFile (N := N) (C := C) file with
  | inr _ => True
  | inl pem => Env.CertsFromPEM (N := N) (C := C) pem = []
  end ->
  Dial Config Connection {| network := n; dials := [] |}
  = ((Some (badCAError (N := N) (C := C) file), Connection),
     {| network := n; dials := [] |}).
Proof.
  intros Hca Hsplit Hgood Hbad. unfold Dial, loadRootCAs.
  apply String.eqb_neq in Hca. rewrite Hca. cbn [negb].
  rewrite Hsplit.
  change (appendCAs (N := NetRecorder N C) (C := C)
            (before ++ file :: after) x509.NewCertPool)
    with (appendCAs (N := N) (C := C)
            (before ++ file :: after) x509.NewCertPool).
  now rewrite (appendCAs_bad file after Hbad before _ Hgood).
Qed.

(** The CA file of the sample is not there. *)
Lemma Dial_bad_CA_file_dials_nothing_witness :
  Dial caConfig None {| network := sampleNetwork; dials := [] |}
  = ((Some (OtherError "open /etc/ssl/ldap-ca.pem: no such file"), None),
     {| network := sampleNetwork; dials := [] |}).
Proof.
  refine (Dial_bad_CA_file_dials_nothing MockNetwork MockConnection _ _
            caConfig None sampleNetwork [] [] "/etc/ssl/ldap-ca.pem"
            _ eq_refl _ I).
  - discriminate.
  - intros f [].
Defined.

Section DialMode.

Context {N C : Type} {IC : Conn.IConnection C} {EV : Env.Environment N C}.
Variable Config : ServerConfig.
Variable certPool : option x509.CertPool.
Variable clientCert : tls.Certificate.

Lemma Dial_host_mode (host : string) (r : NetRecorder N C) :
  exists d,
    dials (snd (Dial_host Config certPool clientCert host r))
    = (dials r ++ [d])%list /\
    dial_tls d = UseSSL Config && negb (StartTLS Config) /\
    (UseSSL Config = false ->
     snd (fst (Dial_host Config certPool clientCert host r))
     = match dial_answer d with inl c => Some c | inr _ => None end) /\
    (fst (fst (Dial_host Config certPool clientCert host r)) = None ->
     snd (fst (Dial_host Config certPool clientCert host r)) <> None).
Proof.
  unfold Dial_host.
  cbn [Env.Dial Env.DialTLS NetRecorder_Environment].
  destruct (UseSSL Config); [destruct (StartTLS Config) |];
    rewrite record_dial_run; cbn [andb negb];
    match goal with
    | |- context [fst (?op (network r))] =>
        destruct (fst (op (network r))) as [c | err] eqn:E
    end;
    try (destruct (Conn.StartTLS _ c) as [e c'] eqn:Et);
    eexists; cbn [fst snd dials];
    (split; [reflexivity |]);
    cbn [dial_tls dial_answer]; (split; [reflexivity |]);
    (split; [solve [discriminate | reflexivity] | discriminate]).
Qed.

Lemma Dial_hosts_mode :
  forall (hosts : list string) (err : option error) (conn : option C)
         (r : NetRecorder N C),
    Forall (fun d => dial_tls d = UseSSL Config && negb (StartTLS Config))
           (dials r) ->
    hosts <> [] ->
    let run := Dial_hosts Config certPool clientCert hosts err conn r in
    Forall (fun d => dial_tls d = UseSSL Config && negb (StartTLS Config))
           (dials (snd run)) /\
    (UseSSL Config = false -> fst (fst run) = None ->
     exists d c,
       In d (dials (snd run)) /\ dial_answer d = inl c /\
       snd (fst run) = Some c).
Proof.
  induction hosts as [|h rest IH]; intros err conn r Hall Hne; [congruence |].
  cbn [Dial_hosts]. cbv zeta.
  destruct (Dial_host_mode h r) as (d & Hd & Ht & Hplain & Hconn).
  destruct (Dial_host Config certPool clientCert h r) as [[[e|] conn1] r1].
  - cbn [fst snd] in Hd, Hplain, Hconn.
    assert (Hall1 : Forall (fun d => dial_tls d
                                     = UseSSL Config && negb (StartTLS Config))
                      (dials r1)).
    { rewrite Hd. apply Forall_app. split; [exact Hall |]. now constructor. }
    destruct rest as [|h' rest'].
    + cbn [Dial_hosts fst snd]. split; [exact Hall1 | discriminate].
    + apply (IH (Some e) conn1 r1 Hall1). discriminate.
  - cbn [fst snd] in Hd, Hplain, Hconn |- *. split.
    + rewrite Hd. apply Forall_app. split; [exact Hall |]. now constructor.
    + intros Hssl _. specialize (Hplain Hssl). specialize (Hconn eq_refl).
      destruct (dial_answer d) as [c | e] eqn:Ea; [| congruence].
      exists d, c. rewrite Hd. repeat split; try assumption.
      apply in_or_app. right. now left.
Qed.

End DialMode.

(** X13.  [Dial] keeps to the transport of the configuration on every
    host: with [UseSSL] and without [StartTLS] each dial is a TLS dial,
    never one in clear, and in every other case each dial is a plain one.
    Without [UseSSL] the connection that a successful [Dial] sets is the
    very connection the network returned: no upgrade is asked of it, even
    if [StartTLS] is set. *)
Theorem Dial_transport (N C : Type) (IC : Conn.IConnection C)
    (EV : Env.Environment N C) (Config : ServerConfig)
    (Connection : option C) (n : N) :
  let run := Dial Config Connection {| network := n; dials := [] |} in
  Forall (fun d => dial_tls d = UseSSL Config && negb (StartTLS Config))
         (dials (snd run)) /\
  (UseSSL Config = false -> fst (fst run) = None ->
   exists d c,
     In d (dials (snd run)) /\ dial_answer d = inl c /\
     snd (fst run) = Some c).
Proof.
  cbv zeta. unfold Dial.
  destruct (loadRootCAs Config) as [certPool | e];
    [| split; [constructor | discriminate]].
  destruct (loadClientCert Config) as [clientCert | e];
    [| split; [constructor | discriminate]].
  apply (Dial_hosts_mode Config certPool clientCert).
  - constructor.
  - apply splitByte_nonempty.
Qed.

(** On the sample network, dialled in clear, the connection set is the
    one that [ldap2.example] gave. *)
Lemma Dial_transport_witness :
  exists d c,
    In d (dials (snd (Dial adminConfig None
                        {| network := sampleNetwork; dials := [] |}))) /\
    dial_answer d = inl c /\
    snd (fst (Dial adminConfig None
                {| network := sampleNetwork; dials := [] |})) = Some c.
Proof.
  exact (proj2 (Dial_transport MockNetwork MockConnection _ _ adminConfig
                  None sampleNetwork) eq_refl eq_refl).
Defined.

(** ** Host names *)

Lemma list_of_append (a b : string) :
  list_ascii_of_string (a ++ b)
  = (list_ascii_of_string a ++ list_ascii_of_string b)%list.
Proof. induction a as [|c a IH]; simpl; [reflexivity | now rewrite IH]. Qed.

Lemma srev_snoc (h : string) (c : ascii) :
  srev (h ++ String c "") = String c (srev h).
Proof.
  unfold srev. rewrite list_of_append, rev_app_distr. reflexivity.
Qed.

Lemma srev_involutive (h : string) : srev (srev h) = h.
Proof.
  unfold srev.
  now rewrite list_ascii_of_string_of_list_ascii, rev_involutive,
    string_of_list_ascii_of_string.
Qed.

Lemma prefix_empty (s : string) : String.prefix "" s = true.
Proof. now destruct s. Qed.

Lemma normalizeHost_brackets (h : string) : normalizeHost ("[" ++ h ++ "]") = h.
Proof.
  unfold normalizeHost, strings.TrimPrefix, strings.TrimSuffix,
    strings.HasSuffix, strings.HasPrefix.
  cbn [String.append String.prefix]. 
  destruct (ascii_dec "[" "[") as [_ | ne]; [| now elim ne].
  rewrite prefix_empty. cbn [String.length drop].
  rewrite srev_snoc. change (srev "]") with "]".
  cbn [String.prefix].
  destruct (ascii_dec "]" "]") as [_ | ne]; [| now elim ne].
  rewrite prefix_empty. cbn [String.length drop].
  apply srev_involutive.
Qed.

(** X14.  A host written in square brackets is dialled at the address of
    the host inside the brackets, whatever that is; so the bracketed and
    the bare way of writing a host that has no bracket of its own give one
    address, and an IPv6 literal, which has a colon, is dialled as
    "[host]:port" under both. *)
Theorem hostAddress_brackets_dropped (Config : ServerConfig) (h : string) :
  normalizeHost ("[" ++ h ++ "]") = h /\
  hostAddress Config ("[" ++ h ++ "]")
  = net.JoinHostPort h (strconv.Itoa (Port Config)) /\
  (normalizeHost h = h ->
   hostAddress Config ("[" ++ h ++ "]") = hostAddress Config h) /\
  ((0 < count_byte ":" h)%nat ->
   hostAddress Config ("[" ++ h ++ "]")
   = "[" ++ h ++ "]:" ++ strconv.Itoa (Port Config)).
Proof.
  assert (H := normalizeHost_brackets h).
  unfold hostAddress. rewrite H. repeat split.
  - intros ->. reflexivity.
  - intros Hc. unfold net.JoinHostPort.
    apply Nat.ltb_lt in Hc. now rewrite Hc.
Qed.

(** The loopback address of IPv6, written both ways. *)
Lemma hostAddress_brackets_dropped_witness :
  hostAddress adminConfig "[::1]" = hostAddress adminConfig "::1" /\
  hostAddress adminConfig "[::1]" = "[::1]:389".
Proof.
  destruct (hostAddress_brackets_dropped adminConfig "::1")
    as (_ & _ & Hsame & Hv6).
  split; [apply Hsame; reflexivity | apply Hv6; simpl; lia].
Defined.

(** ** Group membership *)

Lemma requestMemberOf_loop_all {C} {IC : Conn.IConnection C}
    (Config : ServerConfig) (entry : goldap.Entry) (c : C)
    (found : string -> goldap.SearchResult) :
  forall (bases : list string) (memberOf : list string) (r : Recorder C),
    inner r = c ->
    (forall b, In b bases ->
       Conn.Search (groupSearchReq Config entry b) c = (inl (found b), c)) ->
    requestMemberOf_loop Config entry bases memberOf r
    = (Return
         (Ok (memberOf ++
              flat_map
                (fun b => map (getAttribute (groupIDAttribute Config))
                              (goldap.Entries (found b))) bases)%list),
       {| inner := c;
          calls := calls r ++
                   map (fun b => CallSearch (groupSearchReq Config entry b))
                       bases |}).
Proof.
  induction bases as [|b bases IH]; intros memberOf r Hr Hfound.
  - cbn [requestMemberOf_loop flat_map map]. unfold ret.
    rewrite !app_nil_r, <- Hr. now destruct r.
  - cbn [requestMemberOf_loop]. unfold bind, call.
    cbn [Conn.Search Recorder_IConnection]. rewrite record_run, Hr.
    rewrite (Hfound b (or_introl eq_refl)). cbn [fst snd].
    rewrite IH; [| reflexivity | intros b' Hb'; apply Hfound; now right].
    cbn [calls flat_map map]. now rewrite <- !app_assoc.
Qed.

Lemma requestMemberOf_loop_error {C} {IC : Conn.IConnection C}
    (Config : ServerConfig) (entry : goldap.Entry) (c c' : C)
    (found : string -> goldap.SearchResult) (after : list string)
    (base : string) (err : error) :
  Conn.Search (groupSearchReq Config entry base) c = (inr err, c') ->
  forall (before : list string) (memberOf : list string) (r : Recorder C),
    inner r = c ->
    (forall b, In b before ->
       Conn.Search (groupSearchReq Config entry b) c = (inl (found b), c)) ->
    requestMemberOf_loop Config entry (before ++ base :: after) memberOf r
    = (Return (Err err),
       {| inner := c';
          calls := calls r ++
                   map (fun b => CallSearch (groupSearchReq Config entry b))
                       (before ++ [base]) |}).
Proof.
  intros Hs. induction before as [|b before IH]; intros memberOf r Hr Hfound.
  - cbn [app requestMemberOf_loop]. unfold bind, call.
    cbn [Conn.Search Recorder_IConnection]. rewrite record_run, Hr, Hs.
    reflexivity.
  - cbn [app requestMemberOf_loop]. unfold bind, call.
    cbn [Conn.Search Recorder_IConnection]. rewrite record_run, Hr.
    rewrite (Hfound b (or_introl eq_refl)). cbn [fst snd].
    rewrite IH; [| reflexivity | intros b' Hb'; apply Hfound; now right].
    cbn [calls map]. now rewrite <- !app_assoc.
Qed.

(** X15.  [requestMemberOf] searches every group base, in order, one
    search each, and does not stop at a base that has groups: on a
    directory that a search leaves as it was, the result is the list of
    the identifiers of the groups of all bases.  The bases are those of the
    groups, or those of the users when no group base is configured; with
    neither, nothing is asked and nothing found, without a stop.  With the
    member-of attribute unset or "memberOf", a group is identified by its
    DN.  The first error of a search ends the loop and is returned. *)
Theorem requestMemberOf_searches_all_bases (Config : ServerConfig)
    (C : Type) (IC : Conn.IConnection C) (entry : goldap.Entry) (c : C)
    (found : string -> goldap.SearchResult) :
  (groupSearchBaseDNs Config
   = match GroupSearchBaseDNs Config with
     | [] => SearchBaseDNs Config
     | _ => GroupSearchBaseDNs Config
     end) /\
  ((forall b, In b (groupSearchBaseDNs Config) ->
      Conn.Search (groupSearchReq Config entry b) c = (inl (found b), c)) ->
   requestMemberOf Config entry (fresh c)
   = (Return
        (Ok (flat_map
               (fun b => map (getAttribute (groupIDAttribute Config))
                             (goldap.Entries (found b)))
               (groupSearchBaseDNs Config))),
      {| inner := c;
         calls := map (fun b => CallSearch (groupSearchReq Config entry b))
                      (groupSearchBaseDNs Config) |})) /\
  (MemberOf (Attr Config) = "" \/ MemberOf (Attr Config) = "memberOf" ->
   forall group, getAttribute (groupIDAttribute Config) group = goldap.DN group) /\
  (forall before base after err c',
      groupSearchBaseDNs Config = (before ++ base :: after)%list ->
      (forall b, In b before ->
         Conn.Search (groupSearchReq Config entry b) c = (inl (found b), c)) ->
      Conn.Search (groupSearchReq Config entry base) c = (inr err, c') ->
      requestMemberOf Config entry (fresh c)
      = (Return (Err err),
         {| inner := c';
            calls := map (fun b => CallSearch (groupSearchReq Config entry b))
                         (before ++ [base]) |})).
Proof.
  split; [| split; [| split]].
  - unfold groupSearchBaseDNs. now destruct (GroupSearchBaseDNs Config).
  - intros Hfound. unfold requestMemberOf.
    now rewrite (requestMemberOf_loop_all Config entry c found _ []
                   (fresh c) eq_refl Hfound).
  - intros H group. unfold groupIDAttribute. cbv zeta.
    destruct H as [-> | ->]; reflexivity.
  - intros before base after err c' Hb Hfound Hs. unfold requestMemberOf.
    rewrite Hb.
    now rewrite (requestMemberOf_loop_error Config entry c c' found after
                   base err Hs before [] (fresh c) eq_refl Hfound).
Qed.

(** Both group bases of the POSIX sample are searched, and the groups of
    both are returned by their DNs. *)
Lemma requestMemberOf_searches_all_bases_witness :
  requestMemberOf posixGroupConfig carol (fresh groupDirectory)
  = (Return (Ok ["cn=staff,ou=groups,dc=example";
                 "cn=ops,ou=groups,dc=example";
                 "cn=staff,ou=groups,dc=example";
                 "cn=ops,ou=groups,dc=example"]),
     {| inner := groupDirectory;
        calls :=
          [CallSearch (groupSearchReq posixGroupConfig carol
                         "ou=groups,dc=example");
           CallSearch (groupSearchReq posixGroupConfig carol
                         "ou=teams,dc=example")] |}).
Proof.
  refine (proj1 (proj2 (requestMemberOf_searches_all_bases posixGroupConfig
                          MockConnection _ carol groupDirectory
                          (fun _ =>
                             {| goldap.Entries :=
                                  [ {| goldap.DN :=
                                         "cn=staff,ou=groups,dc=example";
                                       goldap.Attributes := [] |};
                                    {| goldap.DN :=
                                         "cn=ops,ou=groups,dc=example";
                                       goldap.Attributes := [] |} ] |}))) _).
  intros b _. reflexivity.
Defined.



(** ** What [Users] asks of the directory *)

Lemma In_firstn {A} (x : A) (k : nat) (l : list A) :
  In x (firstn k l) -> In x l.
Proof.
  intros H. rewrite <- (firstn_skipn k l). apply in_or_app. now left.
Qed.

Section UsersCalls.

Context {C : Type} {IC : Conn.IConnection C}.
Variable Config : ServerConfig.
Variable logins : list string.
Variable r0 : Recorder C.

Let n := Z.of_nat (List.length logins).

(** The calls so far are those of the start and batch searches. *)
Let onlySearches (st : list goldap.Entry * Recorder C) : Prop :=
  exists l,
    calls (snd st) = (calls r0 ++ l)%list /\
    Forall (batchSearch Config logins) l.

Lemma Users_fn_only_searches (i : Z) (st : list goldap.Entry * Recorder C) :
  1 <= i <= (n + 499) / 500 ->
  onlySearches st ->
  onlySearches
    (snd (Users_fn Config logins (fst (batchRange n i))
            (snd (batchRange n i)) st)).
Proof.
  intros Hi (l & Hl & Hgood). unfold n in *.
  rewrite (Users_fn_run Config logins i st Hi).
  destruct (users_recorded Config (batch logins i) (snd st)) as (k & _ & Hc).
  assert (Hnew : Forall (batchSearch Config logins)
                   (searchCalls Config (batch logins i)
                      (firstn k (SearchBaseDNs Config)))).
  { unfold searchCalls. apply Forall_map, Forall_forall. intros base Hb.
    exists base, i. repeat split; try lia.
    - eapply In_firstn. exact Hb.
    - apply (batch_length logins i Hi). }
  exists (l ++ searchCalls Config (batch logins i)
                 (firstn k (SearchBaseDNs Config)))%list.
  split.
  - destruct (users Config (batch logins i) (snd st)) as [[[es|e]|p] r'];
      cbn [snd] in Hc |- *; now rewrite Hc, Hl, app_assoc.
  - apply Forall_app. now split.
Qed.

Lemma Users_loop_only_searches :
  forall (k : nat) (i : Z) (st : list goldap.Entry * Recorder C),
    1 <= i ->
    i + Z.of_nat k - 1 = (n + 499) / 500 ->
    onlySearches st ->
    onlySearches
      (snd (getUsersIteration_loop k n ((n + 499) / 500) i
              (Users_fn Config logins) st)).
Proof.
  induction k as [|k IH]; intros i st Hi Hk Hst; [exact Hst |].
  cbn [getUsersIteration_loop].
  assert (Hlt : (i <? (n + 499) / 500 + 1) = true) by (apply Z.ltb_lt; lia).
  rewrite Hlt, int_float64, int_Min. unfold bind.
  change (UsersMaxRequest * (i - 1)) with (fst (batchRange n i)).
  change (Z.min (i * UsersMaxRequest) n) with (snd (batchRange n i)).
  assert (Hstep := Users_fn_only_searches i st ltac:(lia) Hst).
  destruct (Users_fn Config logins (fst (batchRange n i))
              (snd (batchRange n i)) st) as [[[e|]|p] st1];
    cbn [snd] in Hstep |- *; try exact Hstep.
  apply IH; [lia | lia | exact Hstep].
Qed.

Lemma Users_only_batch_searches_from :
  exists l,
    calls (snd (Users Config logins r0)) = (calls r0 ++ l)%list /\
    Forall (batchSearch Config logins) l.
Proof.
  assert (H : onlySearches
                (snd (getUsersIteration logins (Users_fn Config logins)
                        ([], r0)))).
  { unfold getUsersIteration. fold n. rewrite iterations_ceil.
    apply Users_loop_only_searches.
    - lia.
    - assert (0 <= (n + 499) / 500) by (apply Z.div_pos; unfold n; lia). lia.
    - exists []. split; [now rewrite app_nil_r | constructor]. }
  unfold Users.
  destruct (getUsersIteration logins (Users_fn Config logins) ([], r0))
    as [[[e|]|p] st]; cbn [snd] in H |- *; try exact H.
  destruct (List.length (fst st) =? 0)%nat; [exact H |].
  now rewrite serializeUsers_returns.
Qed.

End UsersCalls.

(** X17.  Whatever the directory answers, and whether [Users] returns,
    fails or stops, all it asks of the connection are searches: each one
    on a configured search base, for one batch of the logins, of at most
    500 logins.  It never binds. *)
Theorem Users_only_batch_searches (Config : ServerConfig)
    (C : Type) (IC : Conn.IConnection C) (logins : list string)
    (r : Recorder C) :
  exists l,
    calls (snd (Users Config logins r)) = (calls r ++ l)%list /\
    Forall (batchSearch Config logins) l /\
    Forall (fun x => isSearch x = true /\ isBind x = false) l.
Proof.
  destruct (Users_only_batch_searches_from Config logins r) as (l & Hl & Hgood).
  exists l. split; [exact Hl |]. split; [exact Hgood |].
  revert Hgood. apply Forall_impl.
  intros x (base & i & _ & _ & _ & ->). split; reflexivity.
Qed.

(** ** Smaller helpers *)

(** X18.  [appendIfNotEmpty] keeps the slice it is given and adds, in
    their order, the values that are not empty: a string is in the result
    exactly when it was in the slice or is a non-empty value, and values
    that are all empty change nothing. *)
Theorem appendIfNotEmpty_members (slice values : list string) :
  (forall x,
      In x (appendIfNotEmpty slice values)
      <-> In x slice \/ (In x values /\ x <> "")) /\
  (exists added, appendIfNotEmpty slice values = (slice ++ added)%list /\
                 (List.length added <= List.length values)%nat /\
                 ~ In "" added) /\
  (Forall (fun v => v = "") values -> appendIfNotEmpty slice values = slice).
Proof.
  rewrite appendIfNotEmpty_filter. split; [| split].
  - intros x. rewrite in_app_iff, filter_In, negb_true_iff.
    now rewrite String.eqb_neq.
  - exists (filter (fun v => negb (String.eqb v "")) values).
    split; [reflexivity |]. split; [apply filter_length_le |].
    rewrite filter_In. intros [_ H]. discriminate.
  - intros H. rewrite <- (app_nil_r slice) at 2. f_equal.
    induction H as [|v r -> _ IH]; [reflexivity | exact IH].
Qed.

(** X19.  [serializeUsers] never fails: it returns one user for each
    entry, in the order of the entries, each mapped by [buildGoldenUser]
    and tagged as coming from the directory. *)
Theorem serializeUsers_one_per_entry (Config : ServerConfig)
    (entries : list goldap.Entry) (S : Type) (s : S) :
  exists found,
    serializeUsers Config entries s = (Return (Ok found), s) /\
    List.length found = List.length entries /\
    (forall i entry,
        nth_error entries i = Some entry ->
        exists user,
          nth_error found i = Some user /\
          buildGoldenUser Config entry s = (Return (Ok user), s) /\
          models.AuthModule user = models.AuthModuleLDAP /\
          models.Email user = getAttribute (Email (Attr Config)) entry).
Proof.
  exists (map (goldenUser Config) entries).
  split; [apply serializeUsers_returns |].
  split; [apply length_map |].
  intros i entry Hi. exists (goldenUser Config entry).
  rewrite nth_error_map, Hi, buildGoldenUser_returns. repeat split.
Qed.
